(** * ingestion.py: Lucca API ingestion, shallow embedding

    The program fetches employee and department records over HTTP, flattens
    the nested department of every employee and writes two CSV files.  The
    functions of [ingestion.py] are embedded as state-and-exception passing
    functions over decoded JSON values. *)

From Stdlib Require Import ZArith String Ascii List Lia.
From Stdlib Require Import Floats.PrimFloat Floats.SpecFloat Floats.FloatOps.
From Stdlib Require Import DecimalString.
From stdpp Require Import base strings list gmap.

(** ** Python values

    What [response.json()] yields: [None], booleans, unbounded integers,
    binary64 floats, strings, lists and dicts.  A dict keeps its keys in
    insertion order, so it is an association list. *)

#[local] Set Warnings "-register-all".

Inductive value : Type :=
  | VNone
  | VBool (b : bool)
  | VInt (n : Z)
  | VFloat (x : float)
  | VStr (s : string)
  | VList (items : list value)
  | VDict (entries : list (string * value)).

Abbreviation dict := (list (string * value)).

(** [d[k]] on a dict, [None] when the key is absent. *)
Fixpoint dict_get (k : string) (d : dict) : option value :=
  match d with
  | [] => None
  | (k', v) :: d' => if String.eqb k k' then Some v else dict_get k d'
  end.

(** [d[k] = x]: an existing key keeps its position, a new key goes last. *)
Fixpoint dict_set (k : string) (x : value) (d : dict) : dict :=
  match d with
  | [] => [(k, x)]
  | (k', v) :: d' =>
      if String.eqb k k' then (k', x) :: d' else (k', v) :: dict_set k x d'
  end.

Definition dict_keys (d : dict) : list string := map fst d.

(** Two dicts are equal in Python when they map the same keys to the same
    values, whatever the insertion order. *)
Definition dict_equiv (d1 d2 : dict) : Prop :=
  forall k, dict_get k d1 = dict_get k d2.

Fixpoint value_size (v : value) : nat :=
  match v with
  | VList l => S (list_sum (map value_size l))
  | VDict d => S (list_sum (map (fun kv => value_size (snd kv)) d))
  | _ => 1
  end.

(** ** Exceptions

    The classes the program can meet, with their base classes: the built-in
    ones raised by the interpreter and those of [requests.exceptions]. *)

Inductive py_class : Type :=
  | BaseException
  | Exception
  | LookupError
  | KeyError
  | IndexError
  | TypeError
  | AttributeError
  | ValueError
  | ArithmeticError
  | OverflowError
  | OSError
  | RuntimeError
  | json_JSONDecodeError        (* json.JSONDecodeError *)
  | RequestException            (* requests.exceptions.* from here on *)
  | ConnectionError
  | HTTPError
  | Timeout
  | TooManyRedirects
  | InvalidURL
  | InvalidJSONError
  | JSONDecodeError.

#[global] Instance py_class_eq_dec : EqDecision py_class.
Proof. solve_decision. Defined.

Definition bases (c : py_class) : list py_class :=
  match c with
  | BaseException => []
  | Exception => [BaseException]
  | LookupError | TypeError | AttributeError | ValueError
  | ArithmeticError | OSError | RuntimeError => [Exception]
  | KeyError | IndexError => [LookupError]
  | OverflowError => [ArithmeticError]
  | json_JSONDecodeError => [ValueError]
  | RequestException => [OSError]
  | ConnectionError | HTTPError | Timeout | TooManyRedirects
  | InvalidJSONError => [RequestException]
  | InvalidURL => [RequestException; ValueError]
  | JSONDecodeError => [InvalidJSONError; json_JSONDecodeError]
  end.

Fixpoint issubclass_upto (depth : nat) (c d : py_class) : bool :=
  bool_decide (c = d) ||
  match depth with
  | O => false
  | S n => existsb (fun b => issubclass_upto n b d) (bases c)
  end.

(** The hierarchy above is five levels deep. *)
Definition issubclass : py_class -> py_class -> bool := issubclass_upto 5.

(** An exception object.  An exception raised by library code carries its
    class and its [str()].  For the errors the interpreter raises itself only
    the class, and the key of a [KeyError], is kept: their message is never
    looked at, since none of them reaches the handler of the program. *)
Inductive exn : Type :=
  | PyKeyError (key : string)
  | PyError (cls : py_class)
  | LibError (cls : py_class) (msg : string).

Definition exn_class (e : exn) : py_class :=
  match e with
  | PyKeyError _ => KeyError
  | PyError c => c
  | LibError c _ => c
  end.

Definition isinstance (e : exn) (c : py_class) : bool :=
  issubclass (exn_class e) c.

(** [str(e)], as the diagnostic prints it; the message of an interpreter
    error other than [KeyError] is not modelled and stands empty. *)
Definition exn_str (e : exn) : string :=
  match e with
  | PyKeyError k => "'" +:+ k +:+ "'"
  | PyError _ => ""
  | LibError _ msg => msg
  end.


Inductive outcome (A : Type) : Type :=
  | Return (a : A)
  | Raise (e : exn).
Arguments Return {A} a.
Arguments Raise {A} e.

Definition obind {A B} (o : outcome A) (f : A -> outcome B) : outcome B :=
  match o with
  | Return a => f a
  | Raise e => Raise e
  end.

Notation "'let*' x := o 'in' k" := (obind o (fun x => k))
  (at level 10, x name, o at level 99, k at level 200, only parsing).

(** ** Interpreter primitives used by the program *)

(** [v[k]] with a string subscript. *)
Definition py_getitem (v : value) (k : string) : outcome value :=
  match v with
  | VDict d =>
      match dict_get k d with
      | Some x => Return x
      | None => Raise (PyKeyError k)
      end
  | _ => Raise (PyError TypeError)
  end.

(** [v[k] = x] with a string subscript; the result is the updated object. *)
Definition py_setitem (v : value) (k : string) (x : value) : outcome value :=
  match v with
  | VDict d => Return (VDict (dict_set k x d))
  | _ => Raise (PyError TypeError)
  end.

(** [float(n)]: nearest binary64, [OverflowError] beyond the largest one. *)
Definition int_to_float (n : Z) : outcome float :=
  match binary_normalize prec emax n 0 false with
  | S754_infinity _ => Raise (PyError OverflowError)
  | sf => Return (SF2Prim sf)
  end.

Definition as_number (v : value) : option (Z + float) :=
  match v with
  | VBool b => Some (inl (if b then 1%Z else 0%Z))
  | VInt n => Some (inl n)
  | VFloat x => Some (inr x)
  | _ => None
  end.

(** [a + b]. *)
Definition py_add (a b : value) : outcome value :=
  match a, b with
  | VList l1, VList l2 => Return (VList (l1 ++ l2))
  | VStr s1, VStr s2 => Return (VStr (s1 +:+ s2))
  | _, _ =>
      match as_number a, as_number b with
      | Some (inl m), Some (inl n) => Return (VInt (m + n))
      | Some (inr x), Some (inr y) => Return (VFloat (x + y))
      | Some (inl m), Some (inr y) =>
          let* x := int_to_float m in Return (VFloat (x + y))
      | Some (inr x), Some (inl n) =>
          let* y := int_to_float n in Return (VFloat (x + y))
      | _, _ => Raise (PyError TypeError)
      end
  end.

(** Runs [f] on the elements in order and stops at the first exception. *)
Fixpoint for_each {A B} (f : A -> outcome B) (l : list A) : outcome (list B) :=
  match l with
  | [] => Return []
  | a :: l' =>
      let* b := f a in
      let* bs := for_each f l' in
      Return (b :: bs)
  end.

(** ** The world outside the program

    A request as [requests.get] receives it, the response object it returns,
    and the program state: the requests sent so far, the lines printed and
    the files written.  Exceptions leave the state as it is when they are
    raised. *)

Record request : Type := mk_request {
  req_url : string;
  req_headers : list (string * string);
  req_params : dict
}.

(** [json] is what [response.json()] does: the decoded body, or the decoding
    error of the installed library.  Every call decodes the body afresh, so
    no two records of a run are the same object and the in-place update of a
    record is a functional update of that element. *)
Record response : Type := mk_response {
  json : outcome value
}.

Record state : Type := mk_state {
  sent : list request;
  stdout : list string;
  files : gmap string (list string)   (* a file is its lines *)
}.

Definition initial_state : state := mk_state [] [] ∅.

Definition M (A : Type) : Type := state -> outcome A * state.

Definition ret {A} (a : A) : M A := fun st => (Return a, st).

Definition bind {A B} (m : M A) (f : A -> M B) : M B :=
  fun st =>
    match m st with
    | (Return a, st') => f a st'
    | (Raise e, st') => (Raise e, st')
    end.

Definition lift {A} (o : outcome A) : M A := fun st => (o, st).

Notation "'do' x <- m ;; k" := (bind m (fun x => k))
  (at level 10, x name, m at level 99, k at level 200, only parsing).

(** [try: body except cls as e: handler e]. *)
Definition try_except {A} (body : M A) (cls : py_class) (handler : exn -> M A)
  : M A :=
  fun st =>
    match body st with
    | (Return a, st') => (Return a, st')
    | (Raise e, st') =>
        if isinstance e cls then handler e st' else (Raise e, st')
    end.

(** [print(line)]. *)
Definition print (line : string) : M unit :=
  fun st => (Return tt, mk_state (sent st) (stdout st ++ [line]) (files st)).

(** [a + b] where [a] comes from [os.getenv]: [None + str] is a [TypeError]. *)
Definition getenv_add (a : option string) (b : string) : outcome string :=
  match a with
  | Some s => Return (s +:+ b)
  | None => Raise (PyError TypeError)
  end.

(** [f"{x}"] for a value of [os.getenv]. *)
Definition format_getenv (x : option string) : string :=
  match x with
  | Some s => s
  | None => "None"
  end.

Section Ingestion.

(** [os.environ], and the transport: what the [n]-th call of
    [requests.get] (counted from 0) does with the request it is given. *)
Variable environ : gmap string string.
Variable transport : nat -> request -> outcome response.

Definition os_getenv (name : string) : option string := environ !! name.

Definition requests_get (url : string) (headers : list (string * string))
    (params : dict) : M response :=
  fun st =>
    let r := mk_request url headers params in
    (transport (length (sent st)) r,
     mk_state (sent st ++ [r]) (stdout st) (files st)).

Definition retrieve_lucca_data (url_suffix : string) (params : dict)
  : M value :=
  let url_api_lucca := os_getenv "URL_API_LUCCA" in
  let token_api_lucca := os_getenv "TOKEN_API_LUCCA" in
  let headers :=
    [("Accept", "application/json");
     ("Authorization",
      "lucca application=" +:+ format_getenv token_api_lucca)] in
  try_except
    (do url <- lift (getenv_add url_api_lucca url_suffix);;
     do response <- requests_get url headers params;;
     do data_json <- lift (json response);;
     do data <- lift (let* d := py_getitem data_json "data" in
                   py_getitem d "items");;
     ret data)
    RequestException
    (fun e =>
       do _ <- print ("An error occurred: " +:+ exn_str e);;
       ret (VList [])).

(** The loop body: [employee["department"] = employee["department"]["name"]]. *)
Definition flatten_department (employee : value) : outcome value :=
  let* department := py_getitem employee "department" in
  let* name := py_getitem department "name" in
  py_setitem employee "department" name.

(** [for employee in employees_list: ...], giving [employees_list] back.
    A list is walked element by element.  A string yields its characters
    and a dict its keys, all strings, on which the subscript of the body
    fails; any other value is not iterable. *)
Definition flatten_departments (employees_list : value) : outcome value :=
  match employees_list with
  | VList l =>
      let* l' := for_each flatten_department l in
      Return (VList l')
  | VStr s =>
      match s with
      | EmptyString => Return (VStr s)
      | String _ _ => Raise (PyError TypeError)
      end
  | VDict d =>
      match d with
      | [] => Return (VDict d)
      | _ :: _ => Raise (PyError TypeError)
      end
  | VNone | VBool _ | VInt _ | VFloat _ => Raise (PyError TypeError)
  end.

Definition create_employees_list (fields : value) : M value :=
  let user_suffix := "/api/v3/users" in
  let params := [("fields", fields)] in
  do current_employees_list <- retrieve_lucca_data user_suffix params;;
  let params := [("dtContractEnd", VStr "notequal,null");
                 ("fields", fields)] in
  do former_employees_list <- retrieve_lucca_data user_suffix params;;
  do employees_list <- lift (py_add current_employees_list
                                 former_employees_list);;
  lift (flatten_departments employees_list).

Definition create_departments_list (fields : value) : M value :=
  let departments_suffix := "/api/v3/departments" in
  let params := [("fields", fields)] in
  do departments_list <- retrieve_lucca_data departments_suffix params;;
  ret departments_list.

End Ingestion.

(** ** The data-frame library

    [save_to_csv] is two library calls: [pd.DataFrame(data)] and
    [df.to_csv(name, index=False)].  They are modelled for [data] a list of
    dicts whose values are integers, strings and [None]: the columns are the
    keys in order of first appearance over all records; a record without a
    column has a missing value (NaN) there, and [None] counts as missing; a
    column of integers with a missing value is stored as floats; a missing
    value is written as the empty field; an empty list of records gives a
    frame without columns, written as one empty line.  A frame outside this
    fragment (booleans, floats, nested lists and dicts, integers beyond 2^53
    in a column with missing values, a field that needs quoting) has no
    model: the functions answer [None]. *)

Record DataFrame : Type := mk_DataFrame {
  columns : list string;
  cells : list (list (option value))     (* one list per record, by column *)
}.

Fixpoint add_new_keys (seen keys : list string) : list string :=
  match keys with
  | [] => seen
  | k :: keys' =>
      add_new_keys (if existsb (String.eqb k) seen then seen else seen ++ [k])
                   keys'
  end.

Definition pd_DataFrame (data : list dict) : DataFrame :=
  let cols := fold_left (fun seen r => add_new_keys seen (dict_keys r)) data [] in
  mk_DataFrame cols (map (fun r => map (fun c => dict_get c r) cols) data).

Inductive dtype : Type := int64 | float64 | object.

Definition is_int (c : option value) : bool :=
  match c with Some (VInt _) => true | _ => false end.

Definition is_int_or_str (c : option value) : bool :=
  match c with Some (VInt _) | Some (VStr _) => true | _ => false end.

Definition is_missing (c : option value) : bool :=
  match c with None | Some VNone => true | Some _ => false end.

(** The type the library gives a column. *)
Definition infer_dtype (col : list (option value)) : option dtype :=
  if forallb is_int col then Some int64
  else if forallb (fun c => is_int c || is_missing c) col then Some float64
  else if forallb (fun c => is_int_or_str c || is_missing c) col then Some object
  else None.

Definition str_int (n : Z) : string := NilZero.string_of_int (Z.to_int n).

(** A cell as [to_csv] writes it, by the type of its column. *)
Definition format_cell (t : dtype) (c : option value) : option string :=
  match c, t with
  | None, _ | Some VNone, _ => Some ""
  | Some (VInt n), float64 =>
      if (Z.abs n <=? 2 ^ 53)%Z then Some (str_int n +:+ ".0") else None
  | Some (VInt n), _ => Some (str_int n)
  | Some (VStr s), object => Some s
  | Some _, _ => None
  end.

Fixpoint column_at (j : nat) (rows : list (list (option value)))
  : list (option value) :=
  match rows with
  | [] => []
  | r :: rows' => default None (r !! j) :: column_at j rows'
  end.

Fixpoint format_row (types : list dtype) (r : list (option value))
  : option (list string) :=
  match types, r with
  | [], [] => Some []
  | t :: types', c :: r' =>
      match format_cell t c, format_row types' r' with
      | Some s, Some ss => Some (s :: ss)
      | _, _ => None
      end
  | _, _ => None
  end.

Fixpoint all_some {A} (l : list (option A)) : option (list A) :=
  match l with
  | [] => Some []
  | Some a :: l' =>
      match all_some l' with Some as' => Some (a :: as') | None => None end
  | None :: _ => None
  end.

(** The table [to_csv] writes: the header cells, then the cells of each
    record.  With [index] set the row number leads every row, under an empty
    header cell. *)
Definition csv_table (df : DataFrame) (index : bool)
  : option (list string * list (list string)) :=
  match all_some (map (fun j => infer_dtype (column_at j (cells df)))
                      (seq 0 (length (columns df)))) with
  | None => None
  | Some types =>
      match all_some (map (format_row types) (cells df)) with
      | None => None
      | Some body =>
          if index
          then Some ("" :: columns df,
                     imap (fun i r => str_int (Z.of_nat i) :: r) body)
          else Some (columns df, body)
      end
  end.

Definition quotechar : ascii := ascii_of_nat 34.

Fixpoint has_char (c : ascii) (s : string) : bool :=
  match s with
  | EmptyString => false
  | String c' s' => Ascii.eqb c c' || has_char c s'
  end.

(** A field the writer leaves unquoted. *)
Definition plain_field (s : string) : bool :=
  negb (has_char "," s || has_char quotechar s
        || has_char (ascii_of_nat 10) s || has_char (ascii_of_nat 13) s).

(** One line of the file, without its terminator.  A row without fields is
    an empty line; a row that is a single empty field is written as a pair
    of quotes. *)
Definition csv_line (fields : list string) : option string :=
  match fields with
  | [] => Some ""
  | [EmptyString] => Some (String quotechar (String quotechar EmptyString))
  | _ =>
      if forallb plain_field fields
      then Some (String.concat "," fields)
      else None
  end.

(** The lines of the file [to_csv] writes. *)
Definition to_csv (df : DataFrame) (index : bool) : option (list string) :=
  match csv_table df index with
  | None => None
  | Some (header, body) => all_some (map csv_line (header :: body))
  end.

(** The records of [data] when it is a list of dicts. *)
Definition records_of (data : value) : option (list dict) :=
  match data with
  | VList l =>
      all_some (map (fun v => match v with VDict r => Some r | _ => None end) l)
  | _ => None
  end.

(** [save_to_csv(data, name)]: the file [name] is created or overwritten.
    The destination is taken to be a path that can be opened for writing
    and whose extension asks for no compression, as the two names [main]
    uses are in a writable directory; a refusal of the file system is not
    modelled. *)
Definition save_to_csv (data : value) (name : string) (st : state)
  : option state :=
  match records_of data with
  | None => None
  | Some records =>
      let df := pd_DataFrame records in
      match to_csv df false with
      | None => None
      | Some lines =>
          Some (mk_state (sent st) (stdout st) (<[name := lines]> (files st)))
      end
  end.

Section Orchestrator.

Variable environ : gmap string string.
Variable transport : nat -> request -> outcome response.

(** [main()]; an uncaught exception ends the run where it is raised.  The
    answer is [None] when a list to be written lies outside the modelled
    fragment of the data-frame library. *)
Definition main (st : state) : option (outcome unit * state) :=
  let employees_fields :=
    VList (map VStr ["firstName"; "lastName"; "gender"; "birthDate";
                     "jobTitle"; "department"; "dtContractStart";
                     "dtContractEnd"]) in
  match create_employees_list environ transport employees_fields st with
  | (Raise e, st1) => Some (Raise e, st1)
  | (Return employees_list, st1) =>
      match save_to_csv employees_list "employees.csv" st1 with
      | None => None
      | Some st2 =>
          let departments_fields :=
            VList (map VStr ["name"; "currentUsersCount"; "hierarchy"]) in
          match create_departments_list environ transport departments_fields
                  st2 with
          | (Raise e, st3) => Some (Raise e, st3)
          | (Return departments_list, st3) =>
              match save_to_csv departments_list "departments.csv" st3 with
              | None => None
              | Some st4 => Some (Return tt, st4)
              end
          end
      end
  end.

End Orchestrator.

(** ** Vocabulary of the statements *)

(** The request [retrieve_lucca_data] builds when the base URL is [u]. *)
Definition lucca_request (environ : gmap string string) (u url_suffix : string)
    (params : dict) : request :=
  mk_request (u +:+ url_suffix)
    [("Accept", "application/json");
     ("Authorization",
      "lucca application=" +:+ format_getenv (environ !! "TOKEN_API_LUCCA"))]
    params.

Definition with_request (r : request) (st : state) : state :=
  mk_state (sent st ++ [r]) (stdout st) (files st).

Definition with_line (line : string) (st : state) : state :=
  mk_state (sent st) (stdout st ++ [line]) (files st).

(** What the transport makes of a request: the [data.items] of the decoded
    body, or the exception met on the way ([requests.get] raising,
    [response.json()] raising, or a subscript failing). *)
Definition fetch_items (transport : nat -> request -> outcome response)
    (n : nat) (r : request) : outcome value :=
  let* response := transport n r in
  let* data_json := json response in
  let* d := py_getitem data_json "data" in
  py_getitem d "items".

(** The transport raises [e] on the request: either [requests.get] raises
    it, or the response it returns raises it from [json()]. *)
Definition transport_raises (transport : nat -> request -> outcome response)
    (n : nat) (r : request) (e : exn) : Prop :=
  transport n r = Raise e \/
  exists resp, transport n r = Return resp /\ json resp = Raise e.

(** An employee record the flattening accepts: a dict whose [department] is
    a dict with a [name]. *)
Definition well_shaped (employee : value) : bool :=
  match employee with
  | VDict r =>
      match dict_get "department" r with
      | Some (VDict d) =>
          match dict_get "name" d with Some _ => true | None => false end
      | _ => false
      end
  | _ => false
  end.

(** Both fetches of [create_employees_list] come back with a list: [l1] the
    current employees, [l2] the former ones, leaving the state [st2]. *)
Definition fetches_return (environ : gmap string string)
    (transport : nat -> request -> outcome response) (fields : value)
    (st : state) (l1 l2 : list value) (st2 : state) : Prop :=
  exists st1,
    retrieve_lucca_data environ transport "/api/v3/users"
      [("fields", fields)] st = (Return (VList l1), st1) /\
    retrieve_lucca_data environ transport "/api/v3/users"
      [("dtContractEnd", VStr "notequal,null"); ("fields", fields)] st1
      = (Return (VList l2), st2).

(** ** Scenarios *)

Definition env0 : gmap string string :=
  <["URL_API_LUCCA" := "https://acme.example"]>
    (<["TOKEN_API_LUCCA" := "t0k3n"]> ∅).

Definition envelope (items : list value) : value :=
  VDict [("data", VDict [("items", VList items)])].

(** A transport that answers its calls, in order, with the given item lists
    wrapped in the envelope, and then with empty lists. *)
Definition stub_transport (answers : list (list value)) (n : nat)
    (_ : request) : outcome response :=
  Return (mk_response (Return (envelope (default [] (answers !! n))))).

(** A transport whose every call raises [e]. *)
Definition failing_transport (e : exn) (_ : nat) (_ : request)
  : outcome response := Raise e.

(** A transport whose responses all decode to [body]. *)
Definition constant_transport (body : value) (_ : nat) (_ : request)
  : outcome response := Return (mk_response (Return body)).

Definition ann : value :=
  VDict [("firstName", VStr "Ann"); ("department", VDict [("name", VStr "Eng")])].

Definition bob : value :=
  VDict [("firstName", VStr "Bob"); ("department", VDict [("name", VStr "Ops")])].

Definition name_fields : value := VList [VStr "firstName"; VStr "department"].

(** What [requests] raises when the CA bundle it is pointed at is missing:
    a plain [OSError], not one of its own exception classes. *)
Definition ca_bundle_error : exn :=
  LibError OSError
    "Could not find a suitable TLS CA certificate bundle, invalid path: /etc/ssl/ca.pem".

Definition connection_error : exn :=
  LibError ConnectionError "Max retries exceeded with url: /api/v3/users".


(** The field lists [main] asks for. *)
Definition employees_fields : value :=
  VList (map VStr ["firstName"; "lastName"; "gender"; "birthDate";
                   "jobTitle"; "department"; "dtContractStart";
                   "dtContractEnd"]).

Definition departments_fields : value :=
  VList (map VStr ["name"; "currentUsersCount"; "hierarchy"]).

(** The parameters of the two users fetches. *)
Definition current_params (fields : value) : dict := [("fields", fields)].

Definition former_params (fields : value) : dict :=
  [("dtContractEnd", VStr "notequal,null"); ("fields", fields)].

(** What [json()] raises on a body that is not JSON, before and since
    [requests] 2.27. *)
Definition json_value_error : exn :=
  LibError json_JSONDecodeError "Expecting value: line 1 column 1 (char 0)".

Definition json_request_error : exn :=
  LibError JSONDecodeError "Expecting value: line 1 column 1 (char 0)".

(** A transport whose responses all fail to decode, raising [e]. *)
Definition undecodable_transport (e : exn) (_ : nat) (_ : request)
  : outcome response := Return (mk_response (Raise e)).

(** A transport that raises [e] on its first call and then answers like
    [stub_transport]. *)
Definition flaky_transport (e : exn) (answers : list (list value)) (n : nat)
    (r : request) : outcome response :=
  match n with
  | O => Raise e
  | S n' => stub_transport answers n' r
  end.

Definition engineering : value :=
  VDict [("name", VStr "Eng"); ("currentUsersCount", VInt 7)].

(** ** The fetch client *)

Lemma retrieve_lucca_data_unfold environ transport url_suffix params st u :
  environ !! "URL_API_LUCCA" = Some u ->
  retrieve_lucca_data environ transport url_suffix params st =
    let r := lucca_request environ u url_suffix params in
    match fetch_items transport (length (sent st)) r with
    | Return items => (Return items, with_request r st)
    | Raise e =>
        if isinstance e RequestException
        then (Return (VList []),
              with_line ("An error occurred: " +:+ exn_str e)
                        (with_request r st))
        else (Raise e, with_request r st)
    end.
Proof.
  intros Hu.
  unfold retrieve_lucca_data, try_except, bind, lift, requests_get, os_getenv,
    fetch_items, lucca_request.
  rewrite Hu. cbn [getenv_add].
  destruct (transport _ _) as [resp|e]; cbn [obind]; [|reflexivity].
  destruct (json resp) as [dj|e]; cbn [obind]; [|reflexivity].
  destruct (py_getitem dj "data") as [d|e]; cbn [obind]; [|reflexivity].
  destruct (py_getitem d "items") as [items|e]; reflexivity.
Qed.

(** Runs one call of the fetch client under a configured base URL. *)
Ltac fetch_with Hu :=
  rewrite (retrieve_lucca_data_unfold _ _ _ _ _ _ Hu); cbn zeta.

Lemma retrieve_lucca_data_no_url environ transport url_suffix params st :
  environ !! "URL_API_LUCCA" = None ->
  retrieve_lucca_data environ transport url_suffix params st =
    (Raise (PyError TypeError), st).
Proof.
  intros Hu.
  unfold retrieve_lucca_data, try_except, bind, lift, os_getenv.
  rewrite Hu. reflexivity.
Qed.

Lemma fetch_items_raises transport n r e :
  transport_raises transport n r e -> fetch_items transport n r = Raise e.
Proof.
  unfold fetch_items.
  intros [H | (resp & H & Hj)]; rewrite H; cbn [obind]; [reflexivity|].
  rewrite Hj. reflexivity.
Qed.

Lemma getitem_error_class v k e :
  py_getitem v k = Raise e -> e = PyKeyError k \/ e = PyError TypeError.
Proof.
  destruct v; cbn; try (intros [= <-]; now right).
  destruct (dict_get k entries); [discriminate|]. intros [= <-]. now left.
Qed.

Lemma getitem_error_uncaught v k e :
  py_getitem v k = Raise e -> isinstance e RequestException = false.
Proof.
  intros H. destruct (getitem_error_class _ _ _ H) as [-> | ->]; reflexivity.
Qed.

(** C1, as the code has it: when the transport raises an exception [e]
    (from [requests.get] or from [response.json()]), what the call does is
    decided by the class of [e].  If [e] is an instance of
    [requests.exceptions.RequestException] the call does not raise: it
    prints the line "An error occurred: <e>" and returns the empty list.  If
    [e] is of any other class it is not caught: the call raises [e] and
    prints nothing. *)
Theorem retrieve_lucca_data_degrades environ transport url_suffix params st u e :
  environ !! "URL_API_LUCCA" = Some u ->
  transport_raises transport (length (sent st))
    (lucca_request environ u url_suffix params) e ->
  (isinstance e RequestException = true ->
   retrieve_lucca_data environ transport url_suffix params st =
     (Return (VList []),
      with_line ("An error occurred: " +:+ exn_str e)
        (with_request (lucca_request environ u url_suffix params) st))) /\
  (isinstance e RequestException = false ->
   retrieve_lucca_data environ transport url_suffix params st =
     (Raise e, with_request (lucca_request environ u url_suffix params) st) /\
   stdout (with_request (lucca_request environ u url_suffix params) st)
     = stdout st).
Proof.
  intros Hu Hraise.
  split; intros Hcls; fetch_with Hu;
    rewrite (fetch_items_raises _ _ _ _ Hraise), Hcls.
  - reflexivity.
  - split; reflexivity.
Qed.

Lemma retrieve_lucca_data_degrades_witness :
  retrieve_lucca_data env0 (failing_transport connection_error)
    "/api/v3/users" [("fields", name_fields)] initial_state =
    (Return (VList []),
     with_line "An error occurred: Max retries exceeded with url: /api/v3/users"
       (with_request
          (lucca_request env0 "https://acme.example" "/api/v3/users"
             [("fields", name_fields)]) initial_state)) /\
  retrieve_lucca_data env0 (undecodable_transport json_value_error)
    "/api/v3/users" [("fields", name_fields)] initial_state =
    (Raise json_value_error,
     with_request
       (lucca_request env0 "https://acme.example" "/api/v3/users"
          [("fields", name_fields)]) initial_state).
Proof.
  split.
  - apply (retrieve_lucca_data_degrades env0
             (failing_transport connection_error)
             "/api/v3/users" [("fields", name_fields)] initial_state
             "https://acme.example" connection_error).
    + reflexivity.
    + left. reflexivity.
    + reflexivity.
  - apply (retrieve_lucca_data_degrades env0
             (undecodable_transport json_value_error)
             "/api/v3/users" [("fields", name_fields)] initial_state
             "https://acme.example" json_value_error).
    + reflexivity.
    + right. exists (mk_response (Raise json_value_error)). split; reflexivity.
    + reflexivity.
Defined.

(** C1 as stated fails: an exception of the transport that is not a
    [RequestException] passes the handler.  Here [requests.get] raises the
    [OSError] of a missing CA bundle; the call raises it and prints
    nothing. *)
Lemma retrieve_lucca_data_lets_os_error_through :
  let r := lucca_request env0 "https://acme.example" "/api/v3/users"
             [("fields", name_fields)] in
  transport_raises (failing_transport ca_bundle_error) 0 r ca_bundle_error /\
  retrieve_lucca_data env0 (failing_transport ca_bundle_error)
    "/api/v3/users" [("fields", name_fields)] initial_state =
    (Raise ca_bundle_error, with_request r initial_state) /\
  stdout (with_request r initial_state) = [].
Proof.
  cbn zeta. split; [left; reflexivity|]. split; [|reflexivity].
  rewrite (retrieve_lucca_data_unfold env0 _ _ _ _ "https://acme.example");
    reflexivity.
Qed.

(** Any exception met between the request and the item list that is not a
    [RequestException] propagates, with no diagnostic. *)
Lemma retrieve_lucca_data_propagates environ transport url_suffix params st u e :
  environ !! "URL_API_LUCCA" = Some u ->
  fetch_items transport (length (sent st))
    (lucca_request environ u url_suffix params) = Raise e ->
  isinstance e RequestException = false ->
  retrieve_lucca_data environ transport url_suffix params st =
    (Raise e, with_request (lucca_request environ u url_suffix params) st).
Proof.
  intros Hu Hf Hcls.
  fetch_with Hu.
  rewrite Hf, Hcls. reflexivity.
Qed.

(** C10: the body decodes to an object that has no ["data"], or whose
    ["data"] object has no ["items"]: [retrieve_lucca_data] raises the
    [KeyError] of the missing key, which its handler does not catch; no
    diagnostic is printed and no empty list is returned. *)
Theorem retrieve_lucca_data_envelope_mismatch
    environ transport url_suffix params st u resp body :
  environ !! "URL_API_LUCCA" = Some u ->
  transport (length (sent st)) (lucca_request environ u url_suffix params)
    = Return resp ->
  json resp = Return (VDict body) ->
  (dict_get "data" body = None \/
   exists d, dict_get "data" body = Some (VDict d) /\ dict_get "items" d = None) ->
  exists key,
    (key = "data" \/ key = "items") /\
    isinstance (PyKeyError key) LookupError = true /\
    isinstance (PyKeyError key) RequestException = false /\
    retrieve_lucca_data environ transport url_suffix params st =
      (Raise (PyKeyError key),
       with_request (lucca_request environ u url_suffix params) st) /\
    stdout (with_request (lucca_request environ u url_suffix params) st)
      = stdout st.
Proof.
  intros Hu Ht Hj Hshape.
  assert (Hkey : exists key, (key = "data" \/ key = "items") /\
            fetch_items transport (length (sent st))
              (lucca_request environ u url_suffix params)
              = Raise (PyKeyError key)).
  { unfold fetch_items. rewrite Ht. cbn [obind]. rewrite Hj. cbn [obind py_getitem].
    destruct Hshape as [Hd | (d & Hd & Hi)]; rewrite Hd; cbn [obind py_getitem].
    - exists "data". split; [now left | reflexivity].
    - rewrite Hi. exists "items". split; [now right | reflexivity]. }
  destruct Hkey as (key & Hk & Hf). exists key.
  split; [exact Hk|]. split; [reflexivity|]. split; [reflexivity|].
  split; [|reflexivity].
  apply retrieve_lucca_data_propagates; [exact Hu | exact Hf | reflexivity].
Qed.

Lemma retrieve_lucca_data_envelope_mismatch_witness :
  exists key,
    (key = "data" \/ key = "items") /\
    isinstance (PyKeyError key) LookupError = true /\
    isinstance (PyKeyError key) RequestException = false /\
    retrieve_lucca_data env0
      (constant_transport (VDict [("error", VStr "unauthorized")]))
      "/api/v3/users" [("fields", name_fields)] initial_state =
      (Raise (PyKeyError key),
       with_request (lucca_request env0 "https://acme.example" "/api/v3/users"
                       [("fields", name_fields)]) initial_state) /\
    stdout (with_request (lucca_request env0 "https://acme.example"
                            "/api/v3/users" [("fields", name_fields)])
              initial_state) = stdout initial_state.
Proof.
  apply (retrieve_lucca_data_envelope_mismatch env0
           (constant_transport (VDict [("error", VStr "unauthorized")]))
           "/api/v3/users" [("fields", name_fields)] initial_state
           "https://acme.example"
           (mk_response (Return (VDict [("error", VStr "unauthorized")])))
           [("error", VStr "unauthorized")]).
  - reflexivity.
  - reflexivity.
  - reflexivity.
  - left. reflexivity.
Defined.

(** A body of any other wrong shape fails in a subscript too, with a
    [KeyError] or a [TypeError], and that error propagates as well. *)
Lemma retrieve_lucca_data_bad_body environ transport url_suffix params st u resp body e :
  environ !! "URL_API_LUCCA" = Some u ->
  transport (length (sent st)) (lucca_request environ u url_suffix params)
    = Return resp ->
  json resp = Return body ->
  (let* d := py_getitem body "data" in py_getitem d "items") = Raise e ->
  (exn_class e = KeyError \/ exn_class e = TypeError) /\
  retrieve_lucca_data environ transport url_suffix params st =
    (Raise e, with_request (lucca_request environ u url_suffix params) st).
Proof.
  intros Hu Ht Hj He.
  assert (Hcls : e = PyKeyError "data" \/ e = PyKeyError "items"
                 \/ e = PyError TypeError).
  { destruct (py_getitem body "data") as [d|e'] eqn:Hd; cbn [obind] in He.
    - destruct (getitem_error_class _ _ _ He); auto.
    - injection He as <-. destruct (getitem_error_class _ _ _ Hd); auto. }
  split.
  - destruct Hcls as [-> | [-> | ->]]; cbn; auto.
  - apply retrieve_lucca_data_propagates; [exact Hu | |].
    + unfold fetch_items. rewrite Ht. cbn [obind]. rewrite Hj. exact He.
    + destruct Hcls as [-> | [-> | ->]]; reflexivity.
Qed.

(** ** Dicts and the loop *)

Section DictFacts.

Variables (k : string) (x : value).

Lemma dict_get_set_eq (d : dict) :
  dict_get k (dict_set k x d) = Some x.
Proof.
  induction d as [|[k' v] d IH]; cbn.
  - now rewrite String.eqb_refl.
  - destruct (String.eqb k k') eqn:E; cbn; rewrite E; [reflexivity | exact IH].
Qed.

Lemma dict_get_set_ne (k0 : string) (d : dict) :
  k0 <> k -> dict_get k0 (dict_set k x d) = dict_get k0 d.
Proof.
  intros Hne. induction d as [|[k' v] d IH]; cbn.
  - apply String.eqb_neq in Hne. now rewrite Hne.
  - destruct (String.eqb k k') eqn:E; cbn.
    + apply String.eqb_eq in E. subst k'.
      apply String.eqb_neq in Hne. now rewrite Hne.
    + now rewrite IH.
Qed.

Lemma dict_keys_set (d : dict) v :
  dict_get k d = Some v -> dict_keys (dict_set k x d) = dict_keys d.
Proof.
  unfold dict_keys. induction d as [|[k' v'] d IH]; cbn; [discriminate|].
  destruct (String.eqb k k'); cbn; [reflexivity|].
  intros H. now rewrite IH.
Qed.

Lemma dict_set_length (d : dict) v :
  dict_get k d = Some v -> length (dict_set k x d) = length d.
Proof.
  intros H. rewrite <- (length_map fst (dict_set k x d)), <- (length_map fst d).
  exact (f_equal (@length string) (dict_keys_set d v H)).
Qed.

End DictFacts.

(** A value stored in a dict is smaller than the dict, so it is not the dict. *)
Lemma dict_get_size k (d : dict) v :
  dict_get k d = Some v -> value_size v < value_size (VDict d).
Proof.
  cbn [value_size]. unfold list_sum.
  induction d as [|[k' v'] d IH]; cbn; [discriminate|].
  destruct (String.eqb k k').
  - intros [= ->]. lia.
  - intros H. specialize (IH H). lia.
Qed.

Lemma dict_get_not_self k (d : dict) v :
  dict_get k d = Some v -> v <> VDict d.
Proof.
  intros H ->. apply dict_get_size in H. lia.
Qed.

Section ForEach.

Context {A B : Type} (f : A -> outcome B).

Lemma for_each_app (l1 l2 : list A) :
  for_each f (l1 ++ l2) =
    let* o1 := for_each f l1 in
    let* o2 := for_each f l2 in
    Return (o1 ++ o2).
Proof.
  induction l1 as [|a l1 IH]; cbn.
  - destruct (for_each f l2); reflexivity.
  - destruct (f a) as [b|e]; cbn; [|reflexivity].
    rewrite IH. destruct (for_each f l1) as [o1|e]; cbn; [|reflexivity].
    destruct (for_each f l2); reflexivity.
Qed.

Lemma for_each_Return (l : list A) (out : list B) :
  for_each f l = Return out <-> Forall2 (fun a b => f a = Return b) l out.
Proof.
  revert out. induction l as [|a l IH]; intros out; cbn.
  - split.
    + intros [= <-]. constructor.
    + intros H. inversion H. reflexivity.
  - split.
    + destruct (f a) as [b|e] eqn:Ha; cbn; [|discriminate].
      destruct (for_each f l) as [bs|e] eqn:Hl; cbn; [|discriminate].
      intros [= <-]. constructor; [exact Ha | now apply IH].
    + intros H. inversion H as [|? b ? bs Ha Hl]; subst.
      rewrite Ha. cbn. apply IH in Hl. rewrite Hl. reflexivity.
Qed.

(** The loop raises exactly when some element does, and then it raises the
    exception of the first such element. *)
Lemma for_each_Raise (l : list A) (e : exn) :
  for_each f l = Raise e <->
  exists l1 a l2 out1,
    l = l1 ++ a :: l2 /\ for_each f l1 = Return out1 /\ f a = Raise e.
Proof.
  induction l as [|a l IH]; cbn.
  - split; [discriminate|]. intros (l1 & a & l2 & _ & H & _).
    destruct l1; discriminate.
  - split.
    + destruct (f a) as [b|e'] eqn:Ha; cbn.
      * destruct (for_each f l) as [bs|e'] eqn:Hl; cbn; [discriminate|].
        intros [= ->].
        destruct (proj1 IH eq_refl) as (l1 & a' & l2 & out1 & -> & H1 & H2).
        exists (a :: l1), a', l2, (b :: out1). cbn. rewrite Ha, H1. auto.
      * intros [= ->]. exists [], a, l, []. auto.
    + intros (l1 & a' & l2 & out1 & Heq & H1 & H2).
      destruct l1 as [|a1 l1]; cbn in Heq; injection Heq as E1 E2.
      * subst a' l2. rewrite H2. reflexivity.
      * subst a1 l. cbn in H1.
        destruct (f a) as [b|e']; cbn in *; [|discriminate].
        destruct (for_each f l1) as [bs|e'] eqn:Hl; cbn in H1; [|discriminate].
        assert (Hr : for_each f (l1 ++ a' :: l2) = Raise e).
        { apply IH. exists l1, a', l2, bs. auto. }
        rewrite Hr. reflexivity.
Qed.

Lemma for_each_total (l : list A) :
  Forall (fun a => exists b, f a = Return b) l ->
  exists out, for_each f l = Return out.
Proof.
  induction 1 as [|a l [b Hb] _ [out IH]]; cbn.
  - now exists [].
  - rewrite Hb, IH. now exists (b :: out).
Qed.

Lemma for_each_fails (l : list A) (a : A) :
  In a l -> (exists e, f a = Raise e) ->
  exists e a', for_each f l = Raise e /\ In a' l /\ f a' = Raise e.
Proof.
  intros Hin [e He]. induction l as [|a0 l IH]; [destruct Hin|].
  cbn. destruct (f a0) as [b|e0] eqn:H0; cbn.
  - destruct Hin as [-> | Hin]; [congruence|].
    destruct (IH Hin) as (e1 & a1 & Hr & Hin1 & H1).
    rewrite Hr. exists e1, a1. cbn. auto.
  - exists e0, a0. cbn. auto.
Qed.

End ForEach.

(** ** The loop body *)

Lemma flatten_department_Return employee out :
  flatten_department employee = Return out <->
  exists r d name,
    employee = VDict r /\
    dict_get "department" r = Some (VDict d) /\
    dict_get "name" d = Some name /\
    out = VDict (dict_set "department" name r).
Proof.
  unfold flatten_department. split.
  - destruct employee as [| | | | |?|r]; cbn; try discriminate.
    destruct (dict_get "department" r) as [dep|] eqn:Hd; cbn; [|discriminate].
    destruct dep as [| | | | |?|d]; cbn; try discriminate.
    destruct (dict_get "name" d) as [name|] eqn:Hn; cbn; [|discriminate].
    intros [= <-]. now exists r, d, name.
  - intros (r & d & name & -> & Hd & Hn & ->). cbn. rewrite Hd. cbn.
    rewrite Hn. reflexivity.
Qed.

Lemma flatten_department_well_shaped employee :
  well_shaped employee = true <-> exists out, flatten_department employee = Return out.
Proof.
  split.
  - destruct employee as [| | | | |?|r]; cbn; try discriminate.
    unfold flatten_department. cbn.
    destruct (dict_get "department" r) as [[| | | | |?|d]|]; cbn; try discriminate.
    destruct (dict_get "name" d) as [name|]; cbn; [|discriminate].
    intros _. eauto.
  - intros [out H]. apply flatten_department_Return in H.
    destruct H as (r & d & name & -> & Hd & Hn & _). cbn. now rewrite Hd, Hn.
Qed.

(** What the body raises on a record it does not accept: the [KeyError] of
    the missing key, or a [TypeError] when the record or its department is
    not a dict. *)
Lemma flatten_department_Raise employee e :
  flatten_department employee = Raise e ->
  well_shaped employee = false /\
  (e = PyKeyError "department" \/ e = PyKeyError "name" \/ e = PyError TypeError).
Proof.
  intros H. split.
  - destruct (well_shaped employee) eqn:W; [|reflexivity].
    apply flatten_department_well_shaped in W as [out W]. congruence.
  - unfold flatten_department in H.
    destruct (py_getitem employee "department") as [dep|e1] eqn:H1; cbn in H.
    + destruct (py_getitem dep "name") as [name|e2] eqn:H2; cbn in H.
      * destruct employee; cbn in *; try discriminate.
      * injection H as <-. destruct (getitem_error_class _ _ _ H2); auto.
    + injection H as <-. destruct (getitem_error_class _ _ _ H1); auto.
Qed.

Lemma flatten_department_ill_shaped employee :
  well_shaped employee = false -> exists e, flatten_department employee = Raise e.
Proof.
  intros W. destruct (flatten_department employee) as [out|e] eqn:H; [|eauto].
  assert (well_shaped employee = true)
    by (apply flatten_department_well_shaped; eauto).
  congruence.
Qed.

(** ** The dataset builders *)

Lemma retrieve_lucca_data_sent environ transport url_suffix params st u :
  environ !! "URL_API_LUCCA" = Some u ->
  sent (snd (retrieve_lucca_data environ transport url_suffix params st)) =
    sent st ++ [lucca_request environ u url_suffix params].
Proof.
  intros Hu. fetch_with Hu.
  destruct (fetch_items _ _ _) as [items|e]; [reflexivity|].
  destruct (isinstance e RequestException); reflexivity.
Qed.

(** Once the first fetch has returned, the state the builder ends in is the
    one the second fetch leaves. *)
Lemma create_employees_list_state environ transport fields st v1 st1 :
  retrieve_lucca_data environ transport "/api/v3/users" [("fields", fields)] st
    = (Return v1, st1) ->
  snd (create_employees_list environ transport fields st) =
    snd (retrieve_lucca_data environ transport "/api/v3/users"
           [("dtContractEnd", VStr "notequal,null"); ("fields", fields)] st1).
Proof.
  intros H1. unfold create_employees_list, bind at 1. cbn zeta. rewrite H1.
  unfold bind at 1.
  destruct (retrieve_lucca_data _ _ _ _ st1) as [[v2|e] st2]; [|reflexivity].
  unfold bind, lift. destruct (py_add v1 v2); reflexivity.
Qed.

Lemma create_employees_list_unfold environ transport fields st l1 l2 st2 :
  fetches_return environ transport fields st l1 l2 st2 ->
  create_employees_list environ transport fields st =
    (let* records := for_each flatten_department (l1 ++ l2) in
     Return (VList records), st2).
Proof.
  intros (st1 & H1 & H2).
  unfold create_employees_list, bind, lift. cbn zeta. rewrite H1, H2.
  reflexivity.
Qed.

Lemma create_employees_list_Return environ transport fields st l1 l2 st2 out st' :
  fetches_return environ transport fields st l1 l2 st2 ->
  create_employees_list environ transport fields st = (Return out, st') ->
  exists records,
    out = VList records /\ st' = st2 /\
    Forall2 (fun a b => flatten_department a = Return b) (l1 ++ l2) records.
Proof.
  intros Hf Hrun. rewrite (create_employees_list_unfold _ _ _ _ _ _ _ Hf) in Hrun.
  destruct (for_each flatten_department (l1 ++ l2)) as [records|e] eqn:Hl;
    cbn in Hrun; [|discriminate].
  injection Hrun as <- <-. exists records.
  split; [reflexivity|]. split; [reflexivity|]. now apply for_each_Return.
Qed.

(** The returned list position by position: the record at [i] is the
    fetched record at [i] with its department replaced by the name found in
    it. *)
Lemma create_employees_list_records
    environ transport fields st l1 l2 st2 out st' :
  fetches_return environ transport fields st l1 l2 st2 ->
  create_employees_list environ transport fields st = (Return out, st') ->
  exists records,
    out = VList records /\
    length records = length l1 + length l2 /\
    forall i employee,
      records !! i = Some employee ->
      exists r d name,
        (l1 ++ l2) !! i = Some (VDict r) /\
        dict_get "department" r = Some (VDict d) /\
        dict_get "name" d = Some name /\
        employee = VDict (dict_set "department" name r).
Proof.
  intros Hf Hrun.
  destruct (create_employees_list_Return _ _ _ _ _ _ _ _ _ Hf Hrun)
    as (records & -> & _ & Hall).
  exists records. split; [reflexivity|]. split.
  - rewrite <- (Forall2_length _ _ _ Hall). apply length_app.
  - intros i employee Hi.
    destruct (Forall2_lookup_r _ _ _ _ _ Hall Hi) as (a & Ha & Hflat).
    apply flatten_department_Return in Hflat
      as (r & d & name & -> & Hd & Hn & ->).
    now exists r, d, name.
Qed.

(** C2, as the code has it: in the list [create_employees_list] returns,
    the record at every position, whichever fetch it came from, has under
    ["department"] exactly the value its fetched record had under ["name"]
    inside the nested department mapping, and never that mapping.  The
    code does not look at the type of that value: the department is a
    string exactly when the API sent a string as the name. *)
Theorem create_employees_list_department_is_name
    environ transport fields st l1 l2 st2 out st' :
  fetches_return environ transport fields st l1 l2 st2 ->
  create_employees_list environ transport fields st = (Return out, st') ->
  exists records,
    out = VList records /\
    length records = length l1 + length l2 /\
    forall i employee,
      records !! i = Some employee ->
      exists r d name r',
        (l1 ++ l2) !! i = Some (VDict r) /\
        dict_get "department" r = Some (VDict d) /\
        dict_get "name" d = Some name /\
        employee = VDict r' /\
        dict_get "department" r' = Some name /\
        name <> VDict d /\
        (forall s, dict_get "department" r' = Some (VStr s) <-> name = VStr s).
Proof.
  intros Hf Hrun.
  destruct (create_employees_list_records _ _ _ _ _ _ _ _ _ Hf Hrun)
    as (records & -> & Hlen & Hrec).
  exists records. split; [reflexivity|]. split; [exact Hlen|].
  intros i employee Hi.
  destruct (Hrec i employee Hi) as (r & d & name & Ha & Hd & Hn & ->).
  exists r, d, name, (dict_set "department" name r).
  repeat split; try assumption.
  - apply dict_get_set_eq.
  - exact (dict_get_not_self _ _ _ Hn).
  - rewrite dict_get_set_eq. now intros [= ->].
  - intros ->. apply dict_get_set_eq.
Qed.

(** So when the API sends a string as the name of every department, every
    returned record has a string under ["department"]. *)
Lemma create_employees_list_department_string
    environ transport fields st l1 l2 st2 out st' :
  fetches_return environ transport fields st l1 l2 st2 ->
  create_employees_list environ transport fields st = (Return out, st') ->
  Forall (fun a => forall r d name,
            a = VDict r -> dict_get "department" r = Some (VDict d) ->
            dict_get "name" d = Some name -> exists s, name = VStr s)
         (l1 ++ l2) ->
  exists records,
    out = VList records /\
    Forall (fun employee => exists r s,
              employee = VDict r /\ dict_get "department" r = Some (VStr s))
           records.
Proof.
  intros Hf Hrun Hstr.
  destruct (create_employees_list_records _ _ _ _ _ _ _ _ _ Hf Hrun)
    as (records & -> & _ & Hrec).
  exists records. split; [reflexivity|].
  apply Forall_lookup. intros i employee Hi.
  destruct (Hrec i employee Hi) as (r & d & name & Ha & Hd & Hn & ->).
  destruct (proj1 (Forall_lookup _ _) Hstr i _ Ha r d name eq_refl Hd Hn)
    as [s ->].
  exists (dict_set "department" (VStr s) r), s.
  split; [reflexivity | apply dict_get_set_eq].
Qed.

(** C4: the returned list is the flattened records of the first fetch, in
    their order, followed by the flattened records of the second fetch, in
    their order. *)
Theorem create_employees_list_order
    environ transport fields st l1 l2 st2 out st' :
  fetches_return environ transport fields st l1 l2 st2 ->
  create_employees_list environ transport fields st = (Return out, st') ->
  exists out1 out2,
    out = VList (out1 ++ out2) /\
    Forall2 (fun a b => flatten_department a = Return b) l1 out1 /\
    Forall2 (fun a b => flatten_department a = Return b) l2 out2 /\
    (forall i a, l1 !! i = Some a ->
       exists b, (out1 ++ out2) !! i = Some b /\ flatten_department a = Return b) /\
    (forall j a, l2 !! j = Some a ->
       exists b, (out1 ++ out2) !! (length l1 + j) = Some b /\
                 flatten_department a = Return b).
Proof.
  intros Hf Hrun.
  destruct (create_employees_list_Return _ _ _ _ _ _ _ _ _ Hf Hrun)
    as (records & -> & _ & Hall).
  apply Forall2_app_inv_l in Hall as (out1 & out2 & H1 & H2 & ->).
  exists out1, out2. split; [reflexivity|]. split; [exact H1|]. split; [exact H2|].
  split.
  - intros i a Hi.
    destruct (Forall2_lookup_l _ _ _ _ _ H1 Hi) as (b & Hb & Hab).
    exists b. split; [|exact Hab]. now apply lookup_app_l_Some.
  - intros j a Hj.
    destruct (Forall2_lookup_l _ _ _ _ _ H2 Hj) as (b & Hb & Hab).
    exists b. split; [|exact Hab].
    rewrite (Forall2_length _ _ _ H1), lookup_app_r by lia.
    now replace (length out1 + j - length out1) with j by lia.
Qed.

(** C9: every returned record is its fetched record with only the value
    under ["department"] replaced: same keys in the same order, and under
    every other key the fetched value. *)
Theorem create_employees_list_frame
    environ transport fields st l1 l2 st2 out st' :
  fetches_return environ transport fields st l1 l2 st2 ->
  create_employees_list environ transport fields st = (Return out, st') ->
  exists records,
    out = VList records /\
    length records = length l1 + length l2 /\
    forall i employee,
      records !! i = Some employee ->
      exists r name r',
        (l1 ++ l2) !! i = Some (VDict r) /\
        employee = VDict r' /\
        r' = dict_set "department" name r /\
        dict_keys r' = dict_keys r /\
        forall k, k <> "department" -> dict_get k r' = dict_get k r.
Proof.
  intros Hf Hrun.
  destruct (create_employees_list_records _ _ _ _ _ _ _ _ _ Hf Hrun)
    as (records & -> & Hlen & Hrec).
  exists records. split; [reflexivity|]. split; [exact Hlen|].
  intros i employee Hi.
  destruct (Hrec i employee Hi) as (r & d & name & Ha & Hd & Hn & ->).
  exists r, name, (dict_set "department" name r).
  split; [exact Ha|]. split; [reflexivity|]. split; [reflexivity|]. split.
  - exact (dict_keys_set _ _ _ _ Hd).
  - intros k Hk. now apply dict_get_set_ne.
Qed.

(** When every fetched record is well shaped the builder does return. *)
Lemma create_employees_list_returns environ transport fields st l1 l2 st2 :
  fetches_return environ transport fields st l1 l2 st2 ->
  Forall (fun a => well_shaped a = true) (l1 ++ l2) ->
  exists records,
    create_employees_list environ transport fields st = (Return (VList records), st2).
Proof.
  intros Hf Hall. rewrite (create_employees_list_unfold _ _ _ _ _ _ _ Hf).
  destruct (for_each_total flatten_department (l1 ++ l2)) as [records Hr].
  - eapply Forall_impl; [exact Hall|]. intros a Ha.
    now apply flatten_department_well_shaped.
  - rewrite Hr. now exists records.
Qed.



(** The error by the shape of the record. *)
Lemma flatten_department_errors (r : dict) :
  (dict_get "department" r = None ->
   flatten_department (VDict r) = Raise (PyKeyError "department")) /\
  (forall d, dict_get "department" r = Some (VDict d) ->
     dict_get "name" d = None ->
     flatten_department (VDict r) = Raise (PyKeyError "name")) /\
  (forall dep, dict_get "department" r = Some dep ->
     (forall d, dep <> VDict d) ->
     flatten_department (VDict r) = Raise (PyError TypeError)).
Proof.
  unfold flatten_department. cbn. repeat split.
  - intros ->. reflexivity.
  - intros d -> Hn. cbn. now rewrite Hn.
  - intros dep -> Hd. cbn. destruct dep; try reflexivity. now destruct (Hd entries).
Qed.

Lemma stub_fetches_return (l1 l2 : list value) :
  fetches_return env0 (stub_transport [l1; l2]) name_fields initial_state l1 l2
    (snd (create_employees_list env0 (stub_transport [l1; l2]) name_fields
            initial_state)).
Proof.
  exists (snd (retrieve_lucca_data env0 (stub_transport [l1; l2]) "/api/v3/users"
                 [("fields", name_fields)] initial_state)).
  split; reflexivity.
Qed.

Lemma create_employees_list_department_is_name_witness :
  exists records,
    VList [VDict [("firstName", VStr "Ann"); ("department", VStr "Eng")];
           VDict [("firstName", VStr "Bob"); ("department", VStr "Ops")]]
      = VList records /\
    length records = length [ann] + length [bob] /\
    forall i employee,
      records !! i = Some employee ->
      exists r d name r',
        ([ann] ++ [bob]) !! i = Some (VDict r) /\
        dict_get "department" r = Some (VDict d) /\
        dict_get "name" d = Some name /\
        employee = VDict r' /\
        dict_get "department" r' = Some name /\
        name <> VDict d /\
        (forall s, dict_get "department" r' = Some (VStr s) <-> name = VStr s).
Proof.
  apply (create_employees_list_department_is_name env0
           (stub_transport [[ann]; [bob]]) name_fields initial_state
           [ann] [bob]
           (snd (create_employees_list env0 (stub_transport [[ann]; [bob]])
                   name_fields initial_state))
           (VList [VDict [("firstName", VStr "Ann"); ("department", VStr "Eng")];
                   VDict [("firstName", VStr "Bob"); ("department", VStr "Ops")]])
           (snd (create_employees_list env0 (stub_transport [[ann]; [bob]])
                   name_fields initial_state))
           (stub_fetches_return [ann] [bob])).
  reflexivity.
Defined.

Lemma create_employees_list_order_witness :
  exists out1 out2,
    VList [VDict [("firstName", VStr "Ann"); ("department", VStr "Eng")];
           VDict [("firstName", VStr "Bob"); ("department", VStr "Ops")]]
      = VList (out1 ++ out2) /\
    Forall2 (fun a b => flatten_department a = Return b) [ann] out1 /\
    Forall2 (fun a b => flatten_department a = Return b) [bob] out2 /\
    (forall i a, [ann] !! i = Some a ->
       exists b, (out1 ++ out2) !! i = Some b /\ flatten_department a = Return b) /\
    (forall j a, [bob] !! j = Some a ->
       exists b, (out1 ++ out2) !! (length [ann] + j) = Some b /\
                 flatten_department a = Return b).
Proof.
  apply (create_employees_list_order env0
           (stub_transport [[ann]; [bob]]) name_fields initial_state
           [ann] [bob]
           (snd (create_employees_list env0 (stub_transport [[ann]; [bob]])
                   name_fields initial_state))
           (VList [VDict [("firstName", VStr "Ann"); ("department", VStr "Eng")];
                   VDict [("firstName", VStr "Bob"); ("department", VStr "Ops")]])
           (snd (create_employees_list env0 (stub_transport [[ann]; [bob]])
                   name_fields initial_state))
           (stub_fetches_return [ann] [bob])).
  reflexivity.
Defined.

Lemma create_employees_list_frame_witness :
  exists records,
    VList [VDict [("firstName", VStr "Ann"); ("department", VStr "Eng")];
           VDict [("firstName", VStr "Bob"); ("department", VStr "Ops")]]
      = VList records /\
    length records = length [ann] + length [bob] /\
    forall i employee,
      records !! i = Some employee ->
      exists r name r',
        ([ann] ++ [bob]) !! i = Some (VDict r) /\
        employee = VDict r' /\
        r' = dict_set "department" name r /\
        dict_keys r' = dict_keys r /\
        forall k, k <> "department" -> dict_get k r' = dict_get k r.
Proof.
  apply (create_employees_list_frame env0
           (stub_transport [[ann]; [bob]]) name_fields initial_state
           [ann] [bob]
           (snd (create_employees_list env0 (stub_transport [[ann]; [bob]])
                   name_fields initial_state))
           (VList [VDict [("firstName", VStr "Ann"); ("department", VStr "Eng")];
                   VDict [("firstName", VStr "Bob"); ("department", VStr "Ops")]])
           (snd (create_employees_list env0 (stub_transport [[ann]; [bob]])
                   name_fields initial_state))
           (stub_fetches_return [ann] [bob])).
  reflexivity.
Defined.


(** C2 as stated fails on the type of the value: the department of a
    returned record is whatever the API sent as the name.  With a name that
    is itself an object, and with one that is a number, the departments
    returned are a mapping and an integer, not strings. *)
Lemma create_employees_list_name_not_string :
  let nested :=
    VDict [("firstName", VStr "Ann");
           ("department",
            VDict [("name", VDict [("fr", VStr "Ing"); ("en", VStr "Eng")])])] in
  let numbered :=
    VDict [("firstName", VStr "Bob"); ("department", VDict [("name", VInt 7)])] in
  let transport := stub_transport [[nested]; [numbered]] in
  fetches_return env0 transport name_fields initial_state [nested] [numbered]
    (snd (create_employees_list env0 transport name_fields initial_state)) /\
  fst (create_employees_list env0 transport name_fields initial_state) =
    Return (VList
      [VDict [("firstName", VStr "Ann");
              ("department", VDict [("fr", VStr "Ing"); ("en", VStr "Eng")])];
       VDict [("firstName", VStr "Bob"); ("department", VInt 7)]]) /\
  (forall s,
     dict_get "department"
       [("firstName", VStr "Ann");
        ("department", VDict [("fr", VStr "Ing"); ("en", VStr "Eng")])]
     <> Some (VStr s)) /\
  (forall s,
     dict_get "department" [("firstName", VStr "Bob"); ("department", VInt 7)]
     <> Some (VStr s)).
Proof.
  cbn zeta. split; [apply stub_fetches_return|]. split; [reflexivity|].
  split; intros s; discriminate.
Qed.


(** C6: the end-to-end scenario.  The first call of the transport answers
    with Ann's envelope and the second with the empty one; the builder
    returns the one record with the department flattened. *)
Theorem create_employees_list_end_to_end environ transport st u :
  environ !! "URL_API_LUCCA" = Some u ->
  (forall r, transport (length (sent st)) r =
     Return (mk_response (Return
       (VDict [("data", VDict [("items",
          VList [VDict [("firstName", VStr "Ann");
                        ("department", VDict [("name", VStr "Eng")])]])])])))) ->
  (forall r, transport (S (length (sent st))) r =
     Return (mk_response (Return
       (VDict [("data", VDict [("items", VList [])])])))) ->
  fst (create_employees_list environ transport
         (VList [VStr "firstName"; VStr "department"]) st) =
    Return (VList [VDict [("firstName", VStr "Ann");
                          ("department", VStr "Eng")]]).
Proof.
  intros Hu H1 H2.
  unfold create_employees_list, bind at 1. cbn zeta.
  fetch_with Hu.
  unfold fetch_items at 1. rewrite H1. cbn [obind json py_getitem dict_get String.eqb Ascii.eqb Bool.eqb].
  unfold bind at 1.
  fetch_with Hu.
  unfold fetch_items at 1.
  replace (length (sent (with_request _ st))) with (S (length (sent st)))
    by (cbn; rewrite length_app; cbn; lia).
  rewrite H2. reflexivity.
Qed.

Lemma create_employees_list_end_to_end_witness :
  fst (create_employees_list env0 (stub_transport [[ann]; []])
         (VList [VStr "firstName"; VStr "department"]) initial_state) =
    Return (VList [VDict [("firstName", VStr "Ann");
                          ("department", VStr "Eng")]]).
Proof.
  apply (create_employees_list_end_to_end env0 (stub_transport [[ann]; []])
           initial_state "https://acme.example").
  - reflexivity.
  - intros r. reflexivity.
  - intros r. reflexivity.
Defined.

(** C7, as the code has it: once the first fetch has returned, the builder
    sends a second request to the same URL, with the same headers, whose
    parameters are exactly [fields] and [dtContractEnd] with the value
    "notequal,null". *)
Theorem create_employees_list_second_request
    environ transport fields st u v1 st1 :
  environ !! "URL_API_LUCCA" = Some u ->
  retrieve_lucca_data environ transport "/api/v3/users" [("fields", fields)] st
    = (Return v1, st1) ->
  exists r1 r2,
    sent (snd (create_employees_list environ transport fields st))
      = sent st ++ [r1; r2] /\
    req_url r1 = u +:+ "/api/v3/users" /\
    req_params r1 = [("fields", fields)] /\
    req_url r2 = req_url r1 /\
    req_headers r2 = req_headers r1 /\
    req_params r2 = [("dtContractEnd", VStr "notequal,null"); ("fields", fields)] /\
    dict_equiv (req_params r2)
      [("fields", fields); ("dtContractEnd", VStr "notequal,null")].
Proof.
  intros Hu H1.
  exists (lucca_request environ u "/api/v3/users" [("fields", fields)]),
         (lucca_request environ u "/api/v3/users"
            [("dtContractEnd", VStr "notequal,null"); ("fields", fields)]).
  split.
  - rewrite (create_employees_list_state _ _ _ _ _ _ H1).
    rewrite (retrieve_lucca_data_sent _ _ _ _ _ _ Hu).
    pose proof (retrieve_lucca_data_sent environ transport "/api/v3/users"
                  [("fields", fields)] st u Hu) as Hs.
    rewrite H1 in Hs. cbn [snd] in Hs. rewrite Hs, <- app_assoc. reflexivity.
  - repeat split.
    intros k. cbn.
    destruct (String.eqb k "dtContractEnd") eqn:E1;
      destruct (String.eqb k "fields") eqn:E2; try reflexivity.
    apply String.eqb_eq in E1, E2. congruence.
Qed.

Lemma create_employees_list_second_request_witness :
  exists r1 r2,
    sent (snd (create_employees_list env0 (stub_transport [[ann]; [bob]])
                 name_fields initial_state))
      = sent initial_state ++ [r1; r2] /\
    req_url r1 = "https://acme.example" +:+ "/api/v3/users" /\
    req_params r1 = [("fields", name_fields)] /\
    req_url r2 = req_url r1 /\
    req_headers r2 = req_headers r1 /\
    req_params r2 = [("dtContractEnd", VStr "notequal,null");
                     ("fields", name_fields)] /\
    dict_equiv (req_params r2)
      [("fields", name_fields); ("dtContractEnd", VStr "notequal,null")].
Proof.
  apply (create_employees_list_second_request env0
           (stub_transport [[ann]; [bob]]) name_fields initial_state
           "https://acme.example" (VList [ann])
           (snd (retrieve_lucca_data env0 (stub_transport [[ann]; [bob]])
                   "/api/v3/users" [("fields", name_fields)] initial_state))).
  - reflexivity.
  - reflexivity.
Defined.

(** C7 as stated fails on the filter value: the second request does not
    carry "not-equal null" under [dtContractEnd]. *)
Lemma create_employees_list_filter_value :
  exists r2,
    sent (snd (create_employees_list env0 (stub_transport [[ann]; [bob]])
                 name_fields initial_state)) !! 1 = Some r2 /\
    dict_get "dtContractEnd" (req_params r2) = Some (VStr "notequal,null") /\
    ~ dict_equiv (req_params r2)
        [("fields", name_fields); ("dtContractEnd", VStr "not-equal null")].
Proof.
  eexists. split; [reflexivity|]. split; [reflexivity|].
  intros H. specialize (H "dtContractEnd"). discriminate H.
Qed.

(** C5: [create_departments_list] is one call of the fetch client on the
    departments endpoint with [{"fields": fields}], and what that call
    returns, the item list of the response as it was decoded, is returned as
    it is; one request is sent and nothing is printed. *)
Theorem create_departments_list_is_the_fetch environ transport fields st :
  create_departments_list environ transport fields st =
    retrieve_lucca_data environ transport "/api/v3/departments"
      [("fields", fields)] st /\
  forall u items,
    environ !! "URL_API_LUCCA" = Some u ->
    fetch_items transport (length (sent st))
      (lucca_request environ u "/api/v3/departments" [("fields", fields)])
      = Return items ->
    create_departments_list environ transport fields st =
      (Return items,
       with_request
         (lucca_request environ u "/api/v3/departments" [("fields", fields)])
         st).
Proof.
  assert (Heq : create_departments_list environ transport fields st =
                retrieve_lucca_data environ transport "/api/v3/departments"
                  [("fields", fields)] st).
  { unfold create_departments_list, bind, ret. cbn zeta.
    destruct (retrieve_lucca_data _ _ _ _ st) as [[v|e] st']; reflexivity. }
  split; [exact Heq|].
  intros u items Hu Hf. rewrite Heq.
  fetch_with Hu.
  rewrite Hf. reflexivity.
Qed.

Lemma create_departments_list_is_the_fetch_witness :
  create_departments_list env0
    (stub_transport [[VDict [("name", VStr "Eng"); ("currentUsersCount", VInt 7)]]])
    (VList [VStr "name"; VStr "currentUsersCount"]) initial_state =
    (Return (VList [VDict [("name", VStr "Eng"); ("currentUsersCount", VInt 7)]]),
     with_request
       (lucca_request env0 "https://acme.example" "/api/v3/departments"
          [("fields", VList [VStr "name"; VStr "currentUsersCount"])])
       initial_state).
Proof.
  apply (proj2 (create_departments_list_is_the_fetch env0
           (stub_transport
              [[VDict [("name", VStr "Eng"); ("currentUsersCount", VInt 7)]]])
           (VList [VStr "name"; VStr "currentUsersCount"]) initial_state)
           "https://acme.example").
  - reflexivity.
  - reflexivity.
Defined.

(** ** The CSV writer *)

Lemma format_cell_missing t : format_cell t None = Some "".
Proof. reflexivity. Qed.




(** C8: for the records [{"a":1}] and [{"a":2,"b":5}] the file written has
    the header [a,b], the keys in order of first appearance; its first data
    row is [1,], with the empty field under [b]; and no row has a third
    cell for a row number. *)
Theorem save_to_csv_missing_column name st :
  let records := [[("a", VInt 1)]; [("a", VInt 2); ("b", VInt 5)]] in
  let data := VList (map VDict records) in
  records_of data = Some records /\
  columns (pd_DataFrame records) = ["a"; "b"] /\
  csv_table (pd_DataFrame records) false =
    Some (["a"; "b"], [["1"; ""]; ["2"; "5.0"]]) /\
  save_to_csv data name st =
    Some (mk_state (sent st) (stdout st)
            (<[name := ["a,b"; "1,"; "2,5.0"]]> (files st))).
Proof.
  cbn zeta. split; [reflexivity|]. split; [reflexivity|]. split; reflexivity.
Qed.

(** The same records with the index asked for: the column the program turns
    off. *)
Lemma to_csv_with_index :
  to_csv (pd_DataFrame [[("a", VInt 1)]; [("a", VInt 2); ("b", VInt 5)]]) true
    = Some [",a,b"; "0,1,"; "1,2,5.0"].
Proof. reflexivity. Qed.

(** The file is replaced whatever it held. *)
Lemma save_to_csv_overwrites data name st st' :
  save_to_csv data name st = Some st' ->
  (exists records,
     records_of data = Some records /\
     files st' !! name = to_csv (pd_DataFrame records) false) /\
  (forall other, other <> name -> files st' !! other = files st !! other) /\
  sent st' = sent st /\ stdout st' = stdout st.
Proof.
  unfold save_to_csv. destruct (records_of data) as [records|]; [|discriminate].
  cbn zeta. destruct (to_csv _ _) as [lines|] eqn:E; [|discriminate].
  intros [= <-]. cbn.
  split; [exists records; split; [reflexivity|]; rewrite E; apply lookup_insert_eq|].
  split; [|split; reflexivity].
  intros other Hne. now apply lookup_insert_ne.
Qed.

(** ** The orchestrator *)

(** A whole run against a transport that answers the three fetches: both
    files are written, the employees with their departments flattened. *)
Example main_writes_both_files :
  exists st,
    main env0
      (stub_transport
         [[ann]; [bob];
          [VDict [("name", VStr "Eng"); ("currentUsersCount", VInt 7)]]])
      initial_state = Some (Return tt, st) /\
    length (sent st) = 3 /\
    stdout st = [] /\
    files st !! "employees.csv"
      = Some ["firstName,department"; "Ann,Eng"; "Bob,Ops"] /\
    files st !! "departments.csv" = Some ["name,currentUsersCount"; "Eng,7"].
Proof.
  eexists. split; [reflexivity|]. repeat split.
Qed.

(** A record without a department ends the run before any file is written. *)
Example main_stops_on_ill_shaped_record :
  exists st,
    main env0 (stub_transport [[ann]; [VDict [("firstName", VStr "Bob")]]])
      initial_state = Some (Raise (PyKeyError "department"), st) /\
    files st = ∅.
Proof.
  eexists. split; reflexivity.
Qed.

(** ** More on the fetch client *)

(** X1: on a response whose body decodes to an object with [data.items],
    the call returns that value as it is, whatever its type, after one GET
    to the base URL followed by the suffix, with the [Accept] header, the
    [Authorization] header built from the token, and the caller's
    parameters; nothing is printed. *)
Theorem retrieve_lucca_data_returns_items
    environ transport url_suffix params st u resp body d items :
  environ !! "URL_API_LUCCA" = Some u ->
  transport (length (sent st))
    (mk_request (u +:+ url_suffix)
       [("Accept", "application/json");
        ("Authorization",
         "lucca application=" +:+ format_getenv (environ !! "TOKEN_API_LUCCA"))]
       params) = Return resp ->
  json resp = Return (VDict body) ->
  dict_get "data" body = Some (VDict d) ->
  dict_get "items" d = Some items ->
  retrieve_lucca_data environ transport url_suffix params st =
    (Return items,
     mk_state
       (sent st ++
        [mk_request (u +:+ url_suffix)
           [("Accept", "application/json");
            ("Authorization",
             "lucca application="
               +:+ format_getenv (environ !! "TOKEN_API_LUCCA"))]
           params])
       (stdout st) (files st)).
Proof.
  intros Hu Ht Hj Hd Hi. fetch_with Hu.
  unfold fetch_items, lucca_request. rewrite Ht. cbn [obind]. rewrite Hj.
  cbn [obind py_getitem]. rewrite Hd. cbn [obind py_getitem]. rewrite Hi.
  reflexivity.
Qed.

Lemma retrieve_lucca_data_returns_items_witness :
  retrieve_lucca_data env0
    (constant_transport
       (VDict [("data", VDict [("items", VStr "not a list")])]))
    "/api/v3/users" [("fields", name_fields)] initial_state =
    (Return (VStr "not a list"),
     mk_state
       [mk_request "https://acme.example/api/v3/users"
          [("Accept", "application/json");
           ("Authorization", "lucca application=t0k3n")]
          [("fields", name_fields)]]
       [] ∅).
Proof.
  apply (retrieve_lucca_data_returns_items env0
           (constant_transport
              (VDict [("data", VDict [("items", VStr "not a list")])]))
           "/api/v3/users" [("fields", name_fields)] initial_state
           "https://acme.example"
           (mk_response
              (Return (VDict [("data", VDict [("items", VStr "not a list")])])))
           [("data", VDict [("items", VStr "not a list")])]
           [("items", VStr "not a list")] (VStr "not a list"));
    reflexivity.
Defined.

(** The builders inherit the failure of a first fetch that raises. *)
Lemma create_employees_list_first_raises environ transport fields st e st1 :
  retrieve_lucca_data environ transport "/api/v3/users" [("fields", fields)] st
    = (Raise e, st1) ->
  create_employees_list environ transport fields st = (Raise e, st1).
Proof.
  intros H. unfold create_employees_list, bind at 1. cbn zeta. now rewrite H.
Qed.

Lemma create_departments_list_eq environ transport fields st :
  create_departments_list environ transport fields st =
    retrieve_lucca_data environ transport "/api/v3/departments"
      [("fields", fields)] st.
Proof.
  unfold create_departments_list, bind, ret. cbn zeta.
  destruct (retrieve_lucca_data _ _ _ _ st) as [[v|e] st']; reflexivity.
Qed.

(** X2: with [URL_API_LUCCA] unset nothing degrades to an empty result: the
    concatenation of the URL raises a [TypeError] that the handler lets
    through.  The fetch client, both builders and [main] raise it, having
    sent no request, printed nothing and written no file. *)
Theorem unset_base_url_raises environ transport url_suffix params fields st :
  environ !! "URL_API_LUCCA" = None ->
  retrieve_lucca_data environ transport url_suffix params st
    = (Raise (PyError TypeError), st) /\
  create_employees_list environ transport fields st
    = (Raise (PyError TypeError), st) /\
  create_departments_list environ transport fields st
    = (Raise (PyError TypeError), st) /\
  main environ transport st = Some (Raise (PyError TypeError), st).
Proof.
  intros Hu.
  pose proof (retrieve_lucca_data_no_url environ transport) as Hno.
  split; [now apply Hno|]. split; [|split].
  - apply create_employees_list_first_raises. now apply Hno.
  - rewrite create_departments_list_eq. now apply Hno.
  - unfold main. cbn zeta.
    rewrite (create_employees_list_first_raises _ _ _ _ _ _
               (Hno "/api/v3/users" _ st Hu)).
    reflexivity.
Qed.

Lemma unset_base_url_raises_witness :
  retrieve_lucca_data ∅ (stub_transport [[ann]]) "/api/v3/users"
    [("fields", name_fields)] initial_state
    = (Raise (PyError TypeError), initial_state) /\
  create_employees_list ∅ (stub_transport [[ann]]) name_fields initial_state
    = (Raise (PyError TypeError), initial_state) /\
  create_departments_list ∅ (stub_transport [[ann]]) name_fields initial_state
    = (Raise (PyError TypeError), initial_state) /\
  main ∅ (stub_transport [[ann]]) initial_state
    = Some (Raise (PyError TypeError), initial_state).
Proof.
  apply (unset_base_url_raises ∅ (stub_transport [[ann]]) "/api/v3/users"
           [("fields", name_fields)] name_fields initial_state).
  reflexivity.
Defined.

(** What one call does to the state, whatever comes back. *)
Lemma retrieve_lucca_data_effect environ transport url_suffix params st u :
  environ !! "URL_API_LUCCA" = Some u ->
  let r := lucca_request environ u url_suffix params in
  let res := retrieve_lucca_data environ transport url_suffix params st in
  sent (snd res) = sent st ++ [r] /\
  files (snd res) = files st /\
  (stdout (snd res) = stdout st \/
   exists e, transport_raises transport (length (sent st)) r e /\
             isinstance e RequestException = true /\
             fst res = Return (VList []) /\
             stdout (snd res) = stdout st ++ ["An error occurred: " +:+ exn_str e]).
Proof.
  intros Hu. cbn zeta. fetch_with Hu.
  destruct (fetch_items _ _ _) as [items|e] eqn:Hf;
    [cbn; split; [reflexivity|]; split; [reflexivity | now left]|].
  destruct (isinstance e RequestException) eqn:Hc;
    [|cbn; split; [reflexivity|]; split; [reflexivity | now left]].
  cbn [fst snd sent files stdout with_line with_request].
  split; [reflexivity|]. split; [reflexivity|]. right. exists e.
  split; [|split; [exact Hc | split; reflexivity]].
  unfold fetch_items in Hf. unfold transport_raises.
  destruct (transport _ _) as [resp|e0] eqn:Ht; cbn [obind] in Hf.
  - right. exists resp. split; [reflexivity|].
    destruct (json resp) as [dj|e1] eqn:Hj; cbn [obind] in Hf.
    + exfalso.
      destruct (py_getitem dj "data") as [d0|e2] eqn:Hd; cbn [obind] in Hf.
      * apply getitem_error_uncaught in Hf. congruence.
      * injection Hf as <-. apply getitem_error_uncaught in Hd. congruence.
    + congruence.
  - left. congruence.
Qed.

Lemma retrieve_lucca_data_files environ transport url_suffix params st :
  files (snd (retrieve_lucca_data environ transport url_suffix params st))
    = files st.
Proof.
  destruct (environ !! "URL_API_LUCCA") as [u|] eqn:Hu.
  - apply (retrieve_lucca_data_effect _ transport url_suffix params st _ Hu).
  - now rewrite (retrieve_lucca_data_no_url _ _ _ _ _ Hu).
Qed.

(** X3: one call is one request.  Whatever the transport does, the call
    sends exactly one request and never a second one, writes no file, and
    prints either nothing or the one diagnostic line of an exception of the
    transport that it turned into an empty list. *)
Theorem retrieve_lucca_data_single_request
    environ transport url_suffix params st u res st' :
  environ !! "URL_API_LUCCA" = Some u ->
  retrieve_lucca_data environ transport url_suffix params st = (res, st') ->
  sent st' = sent st ++ [lucca_request environ u url_suffix params] /\
  files st' = files st /\
  (stdout st' = stdout st \/
   exists e,
     transport_raises transport (length (sent st))
       (lucca_request environ u url_suffix params) e /\
     isinstance e RequestException = true /\
     res = Return (VList []) /\
     stdout st' = stdout st ++ ["An error occurred: " +:+ exn_str e]).
Proof.
  intros Hu Hrun.
  pose proof (retrieve_lucca_data_effect environ transport url_suffix params
                st u Hu) as H.
  cbn zeta in H. rewrite Hrun in H. exact H.
Qed.

Lemma retrieve_lucca_data_single_request_witness :
  let r := lucca_request env0 "https://acme.example" "/api/v3/users"
             [("fields", name_fields)] in
  let st' := with_line
               "An error occurred: Max retries exceeded with url: /api/v3/users"
               (with_request r initial_state) in
  sent st' = sent initial_state ++ [r] /\
  files st' = files initial_state /\
  (stdout st' = stdout initial_state \/
   exists e,
     transport_raises (failing_transport connection_error)
       (length (sent initial_state)) r e /\
     isinstance e RequestException = true /\
     Return (VList []) = Return (VList []) /\
     stdout st' = stdout initial_state ++ ["An error occurred: " +:+ exn_str e]).
Proof.
  cbn zeta.
  apply (retrieve_lucca_data_single_request env0
           (failing_transport connection_error) "/api/v3/users"
           [("fields", name_fields)] initial_state "https://acme.example"
           (Return (VList []))).
  - reflexivity.
  - reflexivity.
Defined.

(** X4: an exception of the transport that is not an instance of
    [RequestException] is not turned into an empty list: the call raises it
    after the one request, with no diagnostic.  The [ValueError] that
    [json()] raised before [requests] 2.27 on a body that is not JSON is of
    this kind. *)
Theorem retrieve_lucca_data_other_exception
    environ transport url_suffix params st u e :
  environ !! "URL_API_LUCCA" = Some u ->
  transport_raises transport (length (sent st))
    (lucca_request environ u url_suffix params) e ->
  isinstance e RequestException = false ->
  retrieve_lucca_data environ transport url_suffix params st =
    (Raise e,
     mk_state (sent st ++ [lucca_request environ u url_suffix params])
       (stdout st) (files st)).
Proof.
  intros Hu Hraise Hcls.
  apply retrieve_lucca_data_propagates; [exact Hu | | exact Hcls].
  now apply fetch_items_raises.
Qed.

Lemma retrieve_lucca_data_other_exception_witness :
  retrieve_lucca_data env0 (undecodable_transport json_value_error)
    "/api/v3/users" [("fields", name_fields)] initial_state =
    (Raise json_value_error,
     mk_state
       (sent initial_state ++
        [lucca_request env0 "https://acme.example" "/api/v3/users"
           [("fields", name_fields)]])
       (stdout initial_state) (files initial_state)).
Proof.
  apply (retrieve_lucca_data_other_exception env0
           (undecodable_transport json_value_error) "/api/v3/users"
           [("fields", name_fields)] initial_state "https://acme.example"
           json_value_error).
  - reflexivity.
  - right. exists (mk_response (Raise json_value_error)). split; reflexivity.
  - reflexivity.
Defined.

(** X5: a body that decodes to something other than an object, or whose
    ["data"] is not an object, fails in the subscript with a [TypeError];
    the handler lets it through and nothing is printed. *)
Theorem retrieve_lucca_data_body_not_object
    environ transport url_suffix params st u resp body :
  environ !! "URL_API_LUCCA" = Some u ->
  transport (length (sent st)) (lucca_request environ u url_suffix params)
    = Return resp ->
  json resp = Return body ->
  ((forall b, body <> VDict b) \/
   exists b x, body = VDict b /\ dict_get "data" b = Some x /\
               forall d, x <> VDict d) ->
  retrieve_lucca_data environ transport url_suffix params st =
    (Raise (PyError TypeError),
     mk_state (sent st ++ [lucca_request environ u url_suffix params])
       (stdout st) (files st)).
Proof.
  intros Hu Ht Hj Hshape.
  apply retrieve_lucca_data_propagates; [exact Hu | | reflexivity].
  unfold fetch_items. rewrite Ht. cbn [obind]. rewrite Hj. cbn [obind].
  destruct Hshape as [Hb | (b & x & -> & Hd & Hx)].
  - destruct body; try reflexivity. now destruct (Hb entries).
  - cbn [py_getitem]. rewrite Hd. cbn [obind].
    destruct x; try reflexivity. now destruct (Hx entries).
Qed.

Lemma retrieve_lucca_data_body_not_object_witness :
  retrieve_lucca_data env0 (constant_transport (VDict [("data", VNone)]))
    "/api/v3/users" [("fields", name_fields)] initial_state =
    (Raise (PyError TypeError),
     mk_state
       (sent initial_state ++
        [lucca_request env0 "https://acme.example" "/api/v3/users"
           [("fields", name_fields)]])
       (stdout initial_state) (files initial_state)).
Proof.
  apply (retrieve_lucca_data_body_not_object env0
           (constant_transport (VDict [("data", VNone)])) "/api/v3/users"
           [("fields", name_fields)] initial_state "https://acme.example"
           (mk_response (Return (VDict [("data", VNone)])))
           (VDict [("data", VNone)])).
  - reflexivity.
  - reflexivity.
  - reflexivity.
  - right. exists [("data", VNone)], VNone.
    split; [reflexivity|]. split; [reflexivity|]. intros d; discriminate.
Defined.

(** X6: with [TOKEN_API_LUCCA] unset the request is sent all the same, and
    its [Authorization] header reads "lucca application=None". *)
Theorem retrieve_lucca_data_unset_token
    environ transport url_suffix params st u :
  environ !! "URL_API_LUCCA" = Some u ->
  environ !! "TOKEN_API_LUCCA" = None ->
  sent (snd (retrieve_lucca_data environ transport url_suffix params st)) =
    sent st ++
    [mk_request (u +:+ url_suffix)
       [("Accept", "application/json");
        ("Authorization", "lucca application=None")]
       params].
Proof.
  intros Hu Htok.
  rewrite (retrieve_lucca_data_sent _ _ _ _ _ _ Hu).
  unfold lucca_request. now rewrite Htok.
Qed.

Lemma retrieve_lucca_data_unset_token_witness :
  sent (snd (retrieve_lucca_data
               (<["URL_API_LUCCA" := "https://acme.example"]> ∅)
               (stub_transport [[ann]]) "/api/v3/users"
               [("fields", name_fields)] initial_state)) =
    sent initial_state ++
    [mk_request ("https://acme.example" +:+ "/api/v3/users")
       [("Accept", "application/json");
        ("Authorization", "lucca application=None")]
       [("fields", name_fields)]].
Proof.
  apply (retrieve_lucca_data_unset_token
           (<["URL_API_LUCCA" := "https://acme.example"]> ∅)
           (stub_transport [[ann]]) "/api/v3/users"
           [("fields", name_fields)] initial_state "https://acme.example");
    reflexivity.
Defined.

(** ** More on the employees builder *)

Lemma create_employees_list_second_raises environ transport fields st v1 st1 e st2 :
  retrieve_lucca_data environ transport "/api/v3/users" (current_params fields) st
    = (Return v1, st1) ->
  retrieve_lucca_data environ transport "/api/v3/users" (former_params fields) st1
    = (Raise e, st2) ->
  create_employees_list environ transport fields st = (Raise e, st2).
Proof.
  intros H1 H2. unfold create_employees_list, bind. cbn zeta.
  unfold current_params in H1. unfold former_params in H2.
  now rewrite H1, H2.
Qed.

Lemma create_employees_list_both_return environ transport fields st v1 st1 v2 st2 :
  retrieve_lucca_data environ transport "/api/v3/users" (current_params fields) st
    = (Return v1, st1) ->
  retrieve_lucca_data environ transport "/api/v3/users" (former_params fields) st1
    = (Return v2, st2) ->
  create_employees_list environ transport fields st =
    (let* employees_list := py_add v1 v2 in
     flatten_departments employees_list, st2).
Proof.
  intros H1 H2. unfold create_employees_list, bind, lift. cbn zeta.
  unfold current_params in H1. unfold former_params in H2.
  rewrite H1, H2. destruct (py_add v1 v2); reflexivity.
Qed.

(** X7: when the first fetch ends in an exception that is not a
    [RequestException], the builder raises it at once: the second fetch is
    never issued, so one request has been sent, and nothing is printed. *)
Theorem create_employees_list_first_fetch_fails
    environ transport fields st u e :
  environ !! "URL_API_LUCCA" = Some u ->
  fetch_items transport (length (sent st))
    (lucca_request environ u "/api/v3/users" (current_params fields))
    = Raise e ->
  isinstance e RequestException = false ->
  create_employees_list environ transport fields st =
    (Raise e,
     mk_state
       (sent st ++
        [lucca_request environ u "/api/v3/users" (current_params fields)])
       (stdout st) (files st)).
Proof.
  intros Hu Hf Hcls. apply create_employees_list_first_raises.
  now apply retrieve_lucca_data_propagates.
Qed.

Lemma create_employees_list_first_fetch_fails_witness :
  create_employees_list env0
    (constant_transport (VDict [("error", VStr "unauthorized")]))
    name_fields initial_state =
    (Raise (PyKeyError "data"),
     mk_state
       (sent initial_state ++
        [lucca_request env0 "https://acme.example" "/api/v3/users"
           (current_params name_fields)])
       (stdout initial_state) (files initial_state)).
Proof.
  apply (create_employees_list_first_fetch_fails env0
           (constant_transport (VDict [("error", VStr "unauthorized")]))
           name_fields initial_state "https://acme.example"
           (PyKeyError "data")); reflexivity.
Defined.

(** X8: when the first fetch has returned and the second ends in an
    exception that is not a [RequestException], the builder raises it and
    the records of the first fetch are lost with it. *)
Theorem create_employees_list_second_fetch_fails
    environ transport fields st u v1 st1 e :
  environ !! "URL_API_LUCCA" = Some u ->
  retrieve_lucca_data environ transport "/api/v3/users" (current_params fields) st
    = (Return v1, st1) ->
  fetch_items transport (length (sent st1))
    (lucca_request environ u "/api/v3/users" (former_params fields))
    = Raise e ->
  isinstance e RequestException = false ->
  create_employees_list environ transport fields st =
    (Raise e,
     mk_state
       (sent st1 ++
        [lucca_request environ u "/api/v3/users" (former_params fields)])
       (stdout st1) (files st1)).
Proof.
  intros Hu H1 Hf Hcls.
  apply (create_employees_list_second_raises _ _ _ _ _ _ _ _ H1).
  now apply retrieve_lucca_data_propagates.
Qed.

Lemma create_employees_list_second_fetch_fails_witness :
  let transport n r :=
    match n with
    | O => stub_transport [[ann]] n r
    | S _ => constant_transport (VList []) n r
    end in
  let st1 := with_request
               (lucca_request env0 "https://acme.example" "/api/v3/users"
                  (current_params name_fields)) initial_state in
  create_employees_list env0 transport name_fields initial_state =
    (Raise (PyError TypeError),
     mk_state
       (sent st1 ++
        [lucca_request env0 "https://acme.example" "/api/v3/users"
           (former_params name_fields)])
       (stdout st1) (files st1)).
Proof.
  cbn zeta.
  apply (create_employees_list_second_fetch_fails env0 _ name_fields
           initial_state "https://acme.example" (VList [ann])); reflexivity.
Defined.

(** X9: a first fetch that fails with a [RequestException] is taken for an
    empty result.  The builder goes on to the second fetch and returns the
    flattened records of that fetch alone; the one trace of the failure is
    the diagnostic line. *)
Theorem create_employees_list_first_fetch_degraded
    environ transport fields st u e l2 st2 :
  environ !! "URL_API_LUCCA" = Some u ->
  transport_raises transport (length (sent st))
    (lucca_request environ u "/api/v3/users" (current_params fields)) e ->
  isinstance e RequestException = true ->
  retrieve_lucca_data environ transport "/api/v3/users" (former_params fields)
    (with_line ("An error occurred: " +:+ exn_str e)
       (with_request
          (lucca_request environ u "/api/v3/users" (current_params fields)) st))
    = (Return (VList l2), st2) ->
  create_employees_list environ transport fields st =
    (let* records := for_each flatten_department l2 in Return (VList records),
     st2) /\
  exists printed,
    stdout st2 = stdout st ++ ("An error occurred: " +:+ exn_str e) :: printed.
Proof.
  intros Hu Hraise Hcls H2.
  assert (H1 : retrieve_lucca_data environ transport "/api/v3/users"
                 (current_params fields) st =
               (Return (VList []),
                with_line ("An error occurred: " +:+ exn_str e)
                  (with_request
                     (lucca_request environ u "/api/v3/users"
                        (current_params fields)) st))).
  { fetch_with Hu. rewrite (fetch_items_raises _ _ _ _ Hraise), Hcls.
    reflexivity. }
  split.
  - rewrite (create_employees_list_both_return _ _ _ _ _ _ _ _ H1 H2).
    reflexivity.
  - pose proof (retrieve_lucca_data_effect environ transport "/api/v3/users"
                  (former_params fields)
                  (with_line ("An error occurred: " +:+ exn_str e)
                     (with_request
                        (lucca_request environ u "/api/v3/users"
                           (current_params fields)) st)) u Hu) as Hout.
    cbn zeta in Hout. rewrite H2 in Hout. destruct Hout as (_ & _ & Hout).
    cbn [snd fst stdout with_line with_request] in Hout.
    destruct Hout as [-> | (e' & _ & _ & _ & ->)].
    + now exists [].
    + rewrite <- app_assoc. now eexists.
Qed.

Lemma create_employees_list_first_fetch_degraded_witness :
  let transport := flaky_transport connection_error [[bob]] in
  let st2 :=
    with_request
      (lucca_request env0 "https://acme.example" "/api/v3/users"
         (former_params name_fields))
      (with_line "An error occurred: Max retries exceeded with url: /api/v3/users"
         (with_request
            (lucca_request env0 "https://acme.example" "/api/v3/users"
               (current_params name_fields)) initial_state)) in
  create_employees_list env0 transport name_fields initial_state =
    (let* records := for_each flatten_department [bob] in Return (VList records),
     st2) /\
  exists printed,
    stdout st2 =
      stdout initial_state ++
      ("An error occurred: " +:+ exn_str connection_error) :: printed.
Proof.
  cbn zeta.
  apply (create_employees_list_first_fetch_degraded env0
           (flaky_transport connection_error [[bob]]) name_fields
           initial_state "https://acme.example" connection_error [bob]).
  - reflexivity.
  - left. reflexivity.
  - reflexivity.
  - reflexivity.
Defined.

(** X10: a total outage.  When every call of the transport raises some
    [RequestException], both builders return the empty list: the employees
    builder after two requests and two diagnostic lines, the departments
    builder after one of each.  Nothing tells this result from an empty
    dataset. *)
Theorem builders_return_empty_on_outage environ transport fields st u :
  environ !! "URL_API_LUCCA" = Some u ->
  (forall n r, exists e,
      transport n r = Raise e /\ isinstance e RequestException = true) ->
  (exists e1 e2,
     create_employees_list environ transport fields st =
       (Return (VList []),
        mk_state
          (sent st ++
           [lucca_request environ u "/api/v3/users" (current_params fields);
            lucca_request environ u "/api/v3/users" (former_params fields)])
          (stdout st ++
           ["An error occurred: " +:+ exn_str e1;
            "An error occurred: " +:+ exn_str e2])
          (files st))) /\
  (exists e,
     create_departments_list environ transport fields st =
       (Return (VList []),
        mk_state
          (sent st ++
           [lucca_request environ u "/api/v3/departments" [("fields", fields)]])
          (stdout st ++ ["An error occurred: " +:+ exn_str e])
          (files st))).
Proof.
  intros Hu Hdown.
  assert (Hfetch : forall url_suffix params st0, exists e,
            retrieve_lucca_data environ transport url_suffix params st0 =
              (Return (VList []),
               with_line ("An error occurred: " +:+ exn_str e)
                 (with_request (lucca_request environ u url_suffix params) st0))).
  { intros url_suffix params st0.
    destruct (Hdown (length (sent st0))
                (lucca_request environ u url_suffix params)) as (e & He & Hcls).
    exists e. fetch_with Hu. unfold fetch_items. rewrite He. cbn [obind].
    now rewrite Hcls. }
  split.
  - destruct (Hfetch "/api/v3/users" (current_params fields) st) as [e1 H1].
    destruct (Hfetch "/api/v3/users" (former_params fields)
                (with_line ("An error occurred: " +:+ exn_str e1)
                   (with_request
                      (lucca_request environ u "/api/v3/users"
                         (current_params fields)) st))) as [e2 H2].
    exists e1, e2.
    rewrite (create_employees_list_both_return _ _ _ _ _ _ _ _ H1 H2).
    unfold with_line, with_request. cbn. now rewrite <- !app_assoc.
  - destruct (Hfetch "/api/v3/departments" [("fields", fields)] st) as [e H].
    exists e. rewrite create_departments_list_eq. exact H.
Qed.

Lemma builders_return_empty_on_outage_witness :
  (exists e1 e2,
     create_employees_list env0 (failing_transport connection_error)
       name_fields initial_state =
       (Return (VList []),
        mk_state
          (sent initial_state ++
           [lucca_request env0 "https://acme.example" "/api/v3/users"
              (current_params name_fields);
            lucca_request env0 "https://acme.example" "/api/v3/users"
              (former_params name_fields)])
          (stdout initial_state ++
           ["An error occurred: " +:+ exn_str e1;
            "An error occurred: " +:+ exn_str e2])
          (files initial_state))) /\
  (exists e,
     create_departments_list env0 (failing_transport connection_error)
       name_fields initial_state =
       (Return (VList []),
        mk_state
          (sent initial_state ++
           [lucca_request env0 "https://acme.example" "/api/v3/departments"
              [("fields", name_fields)]])
          (stdout initial_state ++ ["An error occurred: " +:+ exn_str e])
          (files initial_state))).
Proof.
  apply (builders_return_empty_on_outage env0
           (failing_transport connection_error) name_fields initial_state
           "https://acme.example").
  - reflexivity.
  - intros n r. exists connection_error. split; reflexivity.
Defined.

(** X11: when both fetches return lists and every record is a dict whose
    department is a dict with a name, the builder returns: one record per
    fetched record, duplicates included, in the state the second fetch
    left. *)
Theorem create_employees_list_returns_on_well_shaped
    environ transport fields st l1 l2 st2 :
  fetches_return environ transport fields st l1 l2 st2 ->
  Forall (fun a => well_shaped a = true) (l1 ++ l2) ->
  exists records,
    create_employees_list environ transport fields st
      = (Return (VList records), st2) /\
    length records = length l1 + length l2 /\
    Forall2 (fun a b => flatten_department a = Return b) (l1 ++ l2) records.
Proof.
  intros Hf Hall.
  destruct (create_employees_list_returns _ _ _ _ _ _ _ Hf Hall)
    as [records Hrun].
  exists records. split; [exact Hrun|].
  destruct (create_employees_list_Return _ _ _ _ _ _ _ _ _ Hf Hrun)
    as (records' & [= <-] & _ & H2).
  split; [|exact H2].
  rewrite <- (Forall2_length _ _ _ H2). apply length_app.
Qed.

Lemma create_employees_list_returns_on_well_shaped_witness :
  exists records,
    create_employees_list env0 (stub_transport [[ann; bob]; [ann]]) name_fields
      initial_state
      = (Return (VList records),
         snd (create_employees_list env0 (stub_transport [[ann; bob]; [ann]])
                name_fields initial_state)) /\
    length records = length [ann; bob] + length [ann] /\
    Forall2 (fun a b => flatten_department a = Return b)
      ([ann; bob] ++ [ann]) records.
Proof.
  apply (create_employees_list_returns_on_well_shaped env0
           (stub_transport [[ann; bob]; [ann]]) name_fields initial_state
           [ann; bob] [ann]
           (snd (create_employees_list env0
                   (stub_transport [[ann; bob]; [ann]]) name_fields
                   initial_state))
           (stub_fetches_return [ann; bob] [ann])).
  repeat constructor.
Defined.

(** X12: the loop stops at the first record it cannot flatten.  When both
    fetches return lists and the builder raises, the records before the
    culprit are all well shaped, the culprit is not, and the exception is
    the one the loop body raises on it. *)
Theorem create_employees_list_first_culprit
    environ transport fields st l1 l2 st2 e st' :
  fetches_return environ transport fields st l1 l2 st2 ->
  create_employees_list environ transport fields st = (Raise e, st') ->
  st' = st2 /\
  exists before culprit after,
    l1 ++ l2 = before ++ culprit :: after /\
    Forall (fun a => well_shaped a = true) before /\
    well_shaped culprit = false /\
    flatten_department culprit = Raise e.
Proof.
  intros Hf Hrun. rewrite (create_employees_list_unfold _ _ _ _ _ _ _ Hf) in Hrun.
  destruct (for_each flatten_department (l1 ++ l2)) as [records|e'] eqn:Hl;
    cbn in Hrun; [discriminate|].
  injection Hrun as -> ->. split; [reflexivity|].
  apply for_each_Raise in Hl as (before & culprit & after & out & Heq & Hb & Hc).
  exists before, culprit, after. split; [exact Heq|]. split; [|split].
  - apply for_each_Return in Hb. clear -Hb.
    induction Hb as [|a b l out Hab _ IH]; constructor; [|exact IH].
    apply flatten_department_well_shaped. eauto.
  - exact (proj1 (flatten_department_Raise _ _ Hc)).
  - exact Hc.
Qed.

Lemma create_employees_list_first_culprit_witness :
  snd (create_employees_list env0
         (stub_transport [[ann; VDict [("firstName", VStr "Cy")]]; [VNone]])
         name_fields initial_state)
  = snd (create_employees_list env0
           (stub_transport [[ann; VDict [("firstName", VStr "Cy")]]; [VNone]])
           name_fields initial_state) /\
  exists before culprit after,
    [ann; VDict [("firstName", VStr "Cy")]] ++ [VNone]
      = before ++ culprit :: after /\
    Forall (fun a => well_shaped a = true) before /\
    well_shaped culprit = false /\
    flatten_department culprit = Raise (PyKeyError "department").
Proof.
  apply (create_employees_list_first_culprit env0
           (stub_transport [[ann; VDict [("firstName", VStr "Cy")]]; [VNone]])
           name_fields initial_state
           [ann; VDict [("firstName", VStr "Cy")]] [VNone]
           (snd (create_employees_list env0
                   (stub_transport
                      [[ann; VDict [("firstName", VStr "Cy")]]; [VNone]])
                   name_fields initial_state))
           (PyKeyError "department")
           (snd (create_employees_list env0
                   (stub_transport
                      [[ann; VDict [("firstName", VStr "Cy")]]; [VNone]])
                   name_fields initial_state))
           (stub_fetches_return [ann; VDict [("firstName", VStr "Cy")]] [VNone])).
  reflexivity.
Defined.

(** X13: the two results are joined by [+] with no check of their type.
    When one fetch returns a list and the other a value that is not a list
    (an object, a string, [null]), the builder raises a [TypeError]; the
    empty list of a degraded fetch does not help. *)
Theorem create_employees_list_list_plus_other
    environ transport fields st v1 st1 v2 st2 :
  retrieve_lucca_data environ transport "/api/v3/users" (current_params fields) st
    = (Return v1, st1) ->
  retrieve_lucca_data environ transport "/api/v3/users" (former_params fields) st1
    = (Return v2, st2) ->
  ((exists l, v1 = VList l) /\ (forall l, v2 <> VList l) \/
   (forall l, v1 <> VList l) /\ (exists l, v2 = VList l)) ->
  create_employees_list environ transport fields st
    = (Raise (PyError TypeError), st2).
Proof.
  intros H1 H2 Hmix.
  rewrite (create_employees_list_both_return _ _ _ _ _ _ _ _ H1 H2).
  destruct Hmix as [[[l ->] Hv2] | [Hv1 [l ->]]].
  - destruct v2; try reflexivity. now destruct (Hv2 items).
  - destruct v1; try reflexivity. now destruct (Hv1 items).
Qed.

Lemma create_employees_list_list_plus_other_witness :
  let transport' (n : nat) (r : request) :=
    match n with
    | O => Raise connection_error
    | S _ =>
        Return (mk_response (Return
          (VDict [("data", VDict [("items", VDict [("total", VInt 0)])])])))
    end in
  create_employees_list env0 transport' name_fields initial_state
    = (Raise (PyError TypeError),
       snd (create_employees_list env0 transport' name_fields initial_state)).
Proof.
  cbn zeta.
  eapply (create_employees_list_list_plus_other env0 _ name_fields
            initial_state (VList []) _ (VDict [("total", VInt 0)])).
  - reflexivity.
  - reflexivity.
  - left. split; [now exists [] | intros l; discriminate].
Defined.

Lemma retrieve_lucca_data_bounds environ transport url_suffix params st :
  let st' := snd (retrieve_lucca_data environ transport url_suffix params st) in
  files st' = files st /\
  (exists rs, sent st' = sent st ++ rs /\ length rs <= 1) /\
  (exists lines, stdout st' = stdout st ++ lines /\ length lines <= 1).
Proof.
  cbn zeta. destruct (environ !! "URL_API_LUCCA") as [u|] eqn:Hu.
  - destruct (retrieve_lucca_data_effect environ transport url_suffix params
                st u Hu) as (Hs & Hfiles & Hout).
    split; [exact Hfiles|]. split.
    + eexists. split; [exact Hs | cbn; lia].
    + destruct Hout as [-> | (e & _ & _ & _ & ->)].
      * exists []. rewrite app_nil_r. split; [reflexivity | cbn; lia].
      * eexists. split; [reflexivity | cbn; lia].
  - rewrite (retrieve_lucca_data_no_url _ _ _ _ _ Hu). cbn.
    split; [reflexivity|].
    split; exists []; rewrite app_nil_r; (split; [reflexivity | cbn; lia]).
Qed.

Lemma create_employees_list_files environ transport fields st :
  files (snd (create_employees_list environ transport fields st)) = files st.
Proof.
  destruct (retrieve_lucca_data environ transport "/api/v3/users"
              (current_params fields) st) as [[v1|e] st1] eqn:H1.
  - rewrite (create_employees_list_state _ _ _ _ _ _ H1).
    rewrite retrieve_lucca_data_files.
    change st1 with (snd (Return v1, st1)). rewrite <- H1.
    apply retrieve_lucca_data_files.
  - rewrite (create_employees_list_first_raises _ _ _ _ _ _ H1). cbn [snd].
    change st1 with (snd (@Raise value e, st1)). rewrite <- H1.
    apply retrieve_lucca_data_files.
Qed.

(** X14: whatever the environment and the transport do, the employees
    builder writes no file, sends at most two requests and prints at most
    two lines, all added after what the state already held. *)
Theorem create_employees_list_footprint environ transport fields st :
  let st' := snd (create_employees_list environ transport fields st) in
  files st' = files st /\
  (exists rs, sent st' = sent st ++ rs /\ length rs <= 2) /\
  (exists lines, stdout st' = stdout st ++ lines /\ length lines <= 2).
Proof.
  cbn zeta.
  destruct (retrieve_lucca_data_bounds environ transport "/api/v3/users"
              (current_params fields) st) as (Hf1 & (rs1 & Hs1 & Hn1) & (o1 & Ho1 & Hm1)).
  destruct (retrieve_lucca_data environ transport "/api/v3/users"
              (current_params fields) st) as [[v1|e] st1] eqn:H1; cbn [snd] in *.
  - rewrite (create_employees_list_state _ _ _ _ _ _ H1).
    destruct (retrieve_lucca_data_bounds environ transport "/api/v3/users"
                (former_params fields) st1)
      as (Hf2 & (rs2 & Hs2 & Hn2) & (o2 & Ho2 & Hm2)).
    unfold former_params in *. cbn zeta in *.
    rewrite Hf2, Hs2, Ho2, Hf1, Hs1, Ho1, <- !app_assoc.
    split; [reflexivity|].
    split; eexists; (split; [reflexivity | rewrite length_app; lia]).
  - rewrite (create_employees_list_first_raises _ _ _ _ _ _ H1). cbn [snd].
    split; [exact Hf1|].
    split; eexists; (split; [eassumption | lia]).
Qed.

(** ** More on the CSV writer and the orchestrator *)



Lemma save_to_csv_Some data name st st' :
  save_to_csv data name st = Some st' ->
  exists records lines,
    records_of data = Some records /\
    to_csv (pd_DataFrame records) false = Some lines /\
    st' = mk_state (sent st) (stdout st) (<[name := lines]> (files st)).
Proof.
  unfold save_to_csv. destruct (records_of data) as [records|]; [|discriminate].
  cbn zeta. destruct (to_csv _ _) as [lines|] eqn:E; [|discriminate].
  intros [= <-]. now exists records, lines.
Qed.



Lemma main_eq environ transport st :
  main environ transport st =
    match create_employees_list environ transport employees_fields st with
    | (Raise e, st1) => Some (Raise e, st1)
    | (Return employees_list, st1) =>
        match save_to_csv employees_list "employees.csv" st1 with
        | None => None
        | Some st2 =>
            match create_departments_list environ transport departments_fields
                    st2 with
            | (Raise e, st3) => Some (Raise e, st3)
            | (Return departments_list, st3) =>
                match save_to_csv departments_list "departments.csv" st3 with
                | None => None
                | Some st4 => Some (Return tt, st4)
                end
            end
        end
    end.
Proof. reflexivity. Qed.

Lemma retrieve_lucca_data_Return_url environ transport url_suffix params st v st' :
  retrieve_lucca_data environ transport url_suffix params st = (Return v, st') ->
  exists u, environ !! "URL_API_LUCCA" = Some u /\
            sent st' = sent st ++ [lucca_request environ u url_suffix params].
Proof.
  intros H. destruct (environ !! "URL_API_LUCCA") as [u|] eqn:Hu.
  - exists u. split; [reflexivity|].
    pose proof (retrieve_lucca_data_sent environ transport url_suffix params
                  st u Hu) as Hs.
    now rewrite H in Hs.
  - rewrite (retrieve_lucca_data_no_url _ _ _ _ _ Hu) in H. discriminate.
Qed.

Lemma create_employees_list_Return_sent environ transport fields st v st' :
  create_employees_list environ transport fields st = (Return v, st') ->
  exists u, environ !! "URL_API_LUCCA" = Some u /\
    sent st' = sent st ++
      [lucca_request environ u "/api/v3/users" (current_params fields);
       lucca_request environ u "/api/v3/users" (former_params fields)].
Proof.
  intros H.
  destruct (retrieve_lucca_data environ transport "/api/v3/users"
              (current_params fields) st) as [[v1|e] st1] eqn:H1.
  - destruct (retrieve_lucca_data_Return_url _ _ _ _ _ _ _ H1) as (u & Hu & Hs1).
    exists u. split; [exact Hu|].
    pose proof (create_employees_list_state _ _ _ _ _ _ H1) as Hst.
    rewrite H in Hst. cbn [snd] in Hst. rewrite Hst.
    rewrite (retrieve_lucca_data_sent _ _ _ _ _ _ Hu), Hs1, <- app_assoc.
    reflexivity.
  - rewrite (create_employees_list_first_raises _ _ _ _ _ _ H1) in H.
    discriminate.
Qed.

(** X17: one employee record that cannot be flattened ends the whole run.
    [main] raises the [KeyError] or [TypeError] of the builder after the two
    users requests: no file has been written and the departments are never
    asked for. *)
Theorem main_stops_on_ill_shaped_employee
    environ transport st l1 l2 st2 bad :
  fetches_return environ transport employees_fields st l1 l2 st2 ->
  In bad (l1 ++ l2) ->
  well_shaped bad = false ->
  exists e u,
    main environ transport st = Some (Raise e, st2) /\
    (exn_class e = KeyError \/ exn_class e = TypeError) /\
    files st2 = files st /\
    environ !! "URL_API_LUCCA" = Some u /\
    sent st2 = sent st ++
      [lucca_request environ u "/api/v3/users" (current_params employees_fields);
       lucca_request environ u "/api/v3/users" (former_params employees_fields)].
Proof.
  intros Hf Hin Hbad.
  destruct (for_each_fails flatten_department (l1 ++ l2) bad Hin
              (flatten_department_ill_shaped _ Hbad))
    as (e & culprit & Hr & _ & He).
  assert (Hrun : create_employees_list environ transport employees_fields st
                 = (Raise e, st2)).
  { rewrite (create_employees_list_unfold _ _ _ _ _ _ _ Hf), Hr. reflexivity. }
  destruct Hf as (st1 & H1 & H2).
  destruct (retrieve_lucca_data_Return_url _ _ _ _ _ _ _ H1) as (u & Hu & Hs1).
  destruct (retrieve_lucca_data_Return_url _ _ _ _ _ _ _ H2) as (u' & Hu' & Hs2).
  assert (u' = u) by congruence. subst u'.
  exists e, u. split; [rewrite main_eq, Hrun; reflexivity|]. split.
  - destruct (flatten_department_Raise _ _ He) as [_ [-> | [-> | ->]]];
      cbn; auto.
  - split; [|split; [exact Hu|]].
    + pose proof (create_employees_list_files environ transport
                    employees_fields st) as Hfiles.
      now rewrite Hrun in Hfiles.
    + rewrite Hs2, Hs1, <- app_assoc. reflexivity.
Qed.

Lemma main_stops_on_ill_shaped_employee_witness :
  let transport := stub_transport [[ann]; [VDict [("firstName", VStr "Bob")]]] in
  let st2 := snd (create_employees_list env0 transport employees_fields
                    initial_state) in
  exists e u,
    main env0 transport initial_state = Some (Raise e, st2) /\
    (exn_class e = KeyError \/ exn_class e = TypeError) /\
    files st2 = files initial_state /\
    env0 !! "URL_API_LUCCA" = Some u /\
    sent st2 = sent initial_state ++
      [lucca_request env0 u "/api/v3/users" (current_params employees_fields);
       lucca_request env0 u "/api/v3/users" (former_params employees_fields)].
Proof.
  cbn zeta.
  apply (main_stops_on_ill_shaped_employee env0
           (stub_transport [[ann]; [VDict [("firstName", VStr "Bob")]]])
           initial_state [ann] [VDict [("firstName", VStr "Bob")]]
           (snd (create_employees_list env0
                   (stub_transport [[ann]; [VDict [("firstName", VStr "Bob")]]])
                   employees_fields initial_state))
           (VDict [("firstName", VStr "Bob")])).
  - exists (snd (retrieve_lucca_data env0
                   (stub_transport [[ann]; [VDict [("firstName", VStr "Bob")]]])
                   "/api/v3/users" [("fields", employees_fields)]
                   initial_state)).
    split; reflexivity.
  - right. left. reflexivity.
  - reflexivity.
Defined.

(** X18: a run that comes to its end, its two lists lying within the
    modelled fragment of the data-frame library, has sent exactly three
    requests, in this order: the users with the employee fields, the users
    again with the contract-end filter added, the departments with the
    department fields.  Both files exist afterwards and no other file has
    changed. *)
Theorem main_success_trace environ transport st st' :
  main environ transport st = Some (Return tt, st') ->
  exists u,
    environ !! "URL_API_LUCCA" = Some u /\
    sent st' = sent st ++
      [lucca_request environ u "/api/v3/users" (current_params employees_fields);
       lucca_request environ u "/api/v3/users" (former_params employees_fields);
       lucca_request environ u "/api/v3/departments"
         [("fields", departments_fields)]] /\
    is_Some (files st' !! "employees.csv") /\
    is_Some (files st' !! "departments.csv") /\
    forall other,
      other <> "employees.csv" -> other <> "departments.csv" ->
      files st' !! other = files st !! other.
Proof.
  rewrite main_eq.
  destruct (create_employees_list environ transport employees_fields st)
    as [[employees|e] st1] eqn:H1; [|discriminate].
  destruct (save_to_csv employees "employees.csv" st1) as [st2|] eqn:H2;
    [|discriminate].
  destruct (create_departments_list environ transport departments_fields st2)
    as [[departments|e] st3] eqn:H3; [|discriminate].
  destruct (save_to_csv departments "departments.csv" st3) as [st4|] eqn:H4;
    [|discriminate].
  intros [= <-].
  destruct (create_employees_list_Return_sent _ _ _ _ _ _ H1) as (u & Hu & Hs1).
  pose proof (create_employees_list_files environ transport employees_fields st)
    as Hf1. rewrite H1 in Hf1. cbn [snd] in Hf1.
  destruct (save_to_csv_Some _ _ _ _ H2) as (r2 & lines2 & _ & _ & ->).
  rewrite create_departments_list_eq in H3.
  pose proof (retrieve_lucca_data_sent environ transport "/api/v3/departments"
                [("fields", departments_fields)]
                (mk_state (sent st1) (stdout st1)
                   (<["employees.csv" := lines2]> (files st1))) u Hu) as Hs3.
  pose proof (retrieve_lucca_data_files environ transport "/api/v3/departments"
                [("fields", departments_fields)]
                (mk_state (sent st1) (stdout st1)
                   (<["employees.csv" := lines2]> (files st1)))) as Hf3.
  rewrite H3 in Hs3, Hf3. cbn [snd sent files] in Hs3, Hf3.
  destruct (save_to_csv_Some _ _ _ _ H4) as (r4 & lines4 & _ & _ & ->).
  exists u. split; [exact Hu|]. cbn [sent files]. split.
  - rewrite Hs3, Hs1, <- app_assoc. reflexivity.
  - rewrite Hf3, Hf1. split; [|split].
    + rewrite lookup_insert_ne by discriminate.
      rewrite lookup_insert_eq. now eexists.
    + rewrite lookup_insert_eq. now eexists.
    + intros other Hn1 Hn2. now rewrite !lookup_insert_ne by congruence.
Qed.

Lemma main_success_trace_witness :
  let st' := mk_state
      [lucca_request env0 "https://acme.example" "/api/v3/users"
         (current_params employees_fields);
       lucca_request env0 "https://acme.example" "/api/v3/users"
         (former_params employees_fields);
       lucca_request env0 "https://acme.example" "/api/v3/departments"
         [("fields", departments_fields)]]
      []
      (<["departments.csv" := ["name,currentUsersCount"; "Eng,7"]]>
         (<["employees.csv" := ["firstName,department"; "Ann,Eng"; "Bob,Ops"]]>
            ∅)) in
  exists u,
    env0 !! "URL_API_LUCCA" = Some u /\
    sent st' = sent initial_state ++
      [lucca_request env0 u "/api/v3/users" (current_params employees_fields);
       lucca_request env0 u "/api/v3/users" (former_params employees_fields);
       lucca_request env0 u "/api/v3/departments"
         [("fields", departments_fields)]] /\
    is_Some (files st' !! "employees.csv") /\
    is_Some (files st' !! "departments.csv") /\
    forall other,
      other <> "employees.csv" -> other <> "departments.csv" ->
      files st' !! other = files initial_state !! other.
Proof.
  cbn zeta.
  apply (main_success_trace env0
           (stub_transport [[ann]; [bob]; [engineering]]) initial_state).
  reflexivity.
Defined.

(** Under a total outage every call of the fetch client degrades. *)
Lemma retrieve_lucca_data_outage environ transport url_suffix params st u :
  environ !! "URL_API_LUCCA" = Some u ->
  (forall n r, exists e,
      transport n r = Raise e /\ isinstance e RequestException = true) ->
  exists e,
    retrieve_lucca_data environ transport url_suffix params st =
      (Return (VList []),
       with_line ("An error occurred: " +:+ exn_str e)
         (with_request (lucca_request environ u url_suffix params) st)).
Proof.
  intros Hu Hdown.
  destruct (Hdown (length (sent st))
              (lucca_request environ u url_suffix params)) as (e & He & Hcls).
  exists e. fetch_with Hu. unfold fetch_items. rewrite He. cbn [obind].
  now rewrite Hcls.
Qed.

(** X22: a total outage does not stop the run.  When every call of the
    transport raises some [RequestException], [main] comes to its end after
    three requests and three diagnostic lines, and both files are written
    from empty lists: each holds the one empty line of a frame without
    columns. *)
Theorem main_completes_on_outage environ transport st u :
  environ !! "URL_API_LUCCA" = Some u ->
  (forall n r, exists e,
      transport n r = Raise e /\ isinstance e RequestException = true) ->
  exists e1 e2 e3,
    main environ transport st =
      Some (Return tt,
            mk_state
              (sent st ++
               [lucca_request environ u "/api/v3/users"
                  (current_params employees_fields);
                lucca_request environ u "/api/v3/users"
                  (former_params employees_fields);
                lucca_request environ u "/api/v3/departments"
                  [("fields", departments_fields)]])
              (stdout st ++
               ["An error occurred: " +:+ exn_str e1;
                "An error occurred: " +:+ exn_str e2;
                "An error occurred: " +:+ exn_str e3])
              (<["departments.csv" := [""]]>
                 (<["employees.csv" := [""]]> (files st)))).
Proof.
  intros Hu Hdown.
  destruct (retrieve_lucca_data_outage environ transport "/api/v3/users"
              (current_params employees_fields) st u Hu Hdown) as [e1 H1].
  destruct (retrieve_lucca_data_outage environ transport "/api/v3/users"
              (former_params employees_fields)
              (with_line ("An error occurred: " +:+ exn_str e1)
                 (with_request
                    (lucca_request environ u "/api/v3/users"
                       (current_params employees_fields)) st))
              u Hu Hdown) as [e2 H2].
  pose proof (create_employees_list_both_return _ _ _ _ _ _ _ _ H1 H2) as Hemp.
  cbn [py_add obind flatten_departments for_each app] in Hemp.
  set (st2 := with_line ("An error occurred: " +:+ exn_str e2)
                (with_request
                   (lucca_request environ u "/api/v3/users"
                      (former_params employees_fields))
                   (with_line ("An error occurred: " +:+ exn_str e1)
                      (with_request
                         (lucca_request environ u "/api/v3/users"
                            (current_params employees_fields)) st)))) in *.
  destruct (retrieve_lucca_data_outage environ transport "/api/v3/departments"
              [("fields", departments_fields)]
              (mk_state (sent st2) (stdout st2)
                 (<["employees.csv" := [""]]> (files st2)))
              u Hu Hdown) as [e3 H3].
  exists e1, e2, e3.
  rewrite main_eq, Hemp.
  change (save_to_csv (VList []) "employees.csv" st2)
    with (Some (mk_state (sent st2) (stdout st2)
                  (<["employees.csv" := [""]]> (files st2)))).
  cbn beta iota. rewrite create_departments_list_eq, H3.
  unfold st2, with_line, with_request. cbn.
  now rewrite <- !app_assoc.
Qed.

Lemma main_completes_on_outage_witness :
  exists e1 e2 e3,
    main env0 (failing_transport connection_error) initial_state =
      Some (Return tt,
            mk_state
              (sent initial_state ++
               [lucca_request env0 "https://acme.example" "/api/v3/users"
                  (current_params employees_fields);
                lucca_request env0 "https://acme.example" "/api/v3/users"
                  (former_params employees_fields);
                lucca_request env0 "https://acme.example" "/api/v3/departments"
                  [("fields", departments_fields)]])
              (stdout initial_state ++
               ["An error occurred: " +:+ exn_str e1;
                "An error occurred: " +:+ exn_str e2;
                "An error occurred: " +:+ exn_str e3])
              (<["departments.csv" := [""]]>
                 (<["employees.csv" := [""]]> (files initial_state)))).
Proof.
  apply (main_completes_on_outage env0 (failing_transport connection_error)
           initial_state "https://acme.example").
  - reflexivity.
  - intros n r. exists connection_error. split; reflexivity.
Defined.

(** A current employee has no contract end: the [null] the API sends for
    it is written as an empty field. *)
Example main_writes_null_as_empty :
  exists st,
    main env0
      (stub_transport
         [[VDict [("firstName", VStr "Ann");
                  ("department", VDict [("name", VStr "Eng")]);
                  ("dtContractEnd", VNone)]];
          [VDict [("firstName", VStr "Bob");
                  ("department", VDict [("name", VStr "Ops")]);
                  ("dtContractEnd", VStr "2024-06-30")]];
          [engineering]])
      initial_state = Some (Return tt, st) /\
    files st !! "employees.csv"
      = Some ["firstName,department,dtContractEnd"; "Ann,Eng,";
              "Bob,Ops,2024-06-30"].
Proof.
  eexists. split; reflexivity.
Qed.

(** ** The columns of a frame *)

Lemma existsb_eqb_elem_of (k : string) (l : list string) :
  existsb (String.eqb k) l = true <-> k ∈ l.
Proof.
  induction l as [|x l IH]; cbn.
  - split; [discriminate | intros H; inversion H].
  - rewrite orb_true_iff, IH, elem_of_cons, String.eqb_eq. tauto.
Qed.

Lemma add_new_keys_spec (keys seen : list string) :
  NoDup seen ->
  NoDup (add_new_keys seen keys) /\
  (exists more, add_new_keys seen keys = seen ++ more) /\
  (forall k, k ∈ add_new_keys seen keys <-> k ∈ seen \/ k ∈ keys).
Proof.
  revert seen. induction keys as [|k keys IH]; intros seen Hnd; cbn.
  - split; [exact Hnd|]. split; [exists []; now rewrite app_nil_r|].
    intros k. rewrite elem_of_nil. tauto.
  - destruct (existsb (String.eqb k) seen) eqn:E.
    + apply existsb_eqb_elem_of in E.
      destruct (IH seen Hnd) as (H1 & H2 & H3).
      split; [exact H1|]. split; [exact H2|].
      intros k0. rewrite H3, elem_of_cons.
      split; [tauto|]. intros [H | [-> | H]]; auto.
    + assert (Hk : k ∉ seen).
      { intros Hin. apply existsb_eqb_elem_of in Hin. congruence. }
      assert (Hnd' : NoDup (seen ++ [k])).
      { apply NoDup_app. split; [exact Hnd|]. split.
        - intros x Hx Hx'. apply list_elem_of_singleton in Hx'. now subst.
        - apply NoDup_singleton. }
      destruct (IH (seen ++ [k]) Hnd') as (H1 & [more H2] & H3).
      split; [exact H1|]. split.
      * exists (k :: more). rewrite H2, <- app_assoc. reflexivity.
      * intros k0. rewrite H3, elem_of_app, list_elem_of_singleton, elem_of_cons.
        tauto.
Qed.

Lemma add_new_keys_fresh (keys seen : list string) :
  NoDup (seen ++ keys) -> add_new_keys seen keys = seen ++ keys.
Proof.
  revert seen. induction keys as [|k keys IH]; intros seen Hnd; cbn.
  - now rewrite app_nil_r.
  - assert (Hk : existsb (String.eqb k) seen = false).
    { destruct (existsb (String.eqb k) seen) eqn:E; [|reflexivity].
      apply existsb_eqb_elem_of in E. apply NoDup_app in Hnd as (_ & Hd & _).
      destruct (Hd k E). now left. }
    rewrite Hk, IH, <- app_assoc; [reflexivity|].
    now rewrite <- app_assoc.
Qed.

Lemma fold_add_new_keys_spec (data : list dict) (seen : list string) :
  NoDup seen ->
  let cols := fold_left (fun seen r => add_new_keys seen (dict_keys r)) data seen in
  NoDup cols /\
  (exists more, cols = seen ++ more) /\
  (forall k, k ∈ cols <-> k ∈ seen \/ exists r, r ∈ data /\ k ∈ dict_keys r).
Proof.
  cbn zeta. revert seen. induction data as [|r data IH]; intros seen Hnd; cbn.
  - split; [exact Hnd|]. split; [exists []; now rewrite app_nil_r|].
    intros k. split; [now left|]. intros [H | (r & Hr & _)]; [exact H|].
    inversion Hr.
  - destruct (add_new_keys_spec (dict_keys r) seen Hnd) as (H1 & [m1 H2] & H3).
    destruct (IH _ H1) as (G1 & [m2 G2] & G3).
    split; [exact G1|]. split.
    + exists (m1 ++ m2). rewrite G2, H2, <- app_assoc. reflexivity.
    + intros k. rewrite G3, H3. split.
      * intros [[H | H] | (r' & Hr' & Hk)]; [now left | right | right].
        -- exists r. split; [now left | exact H].
        -- exists r'. split; [now right | exact Hk].
      * intros [H | (r' & Hr' & Hk)]; [now left; left|].
        apply elem_of_cons in Hr' as [-> | Hr']; [now left; right|].
        right. now exists r'.
Qed.

(** X20: the columns of the frame, which become the header of the file, are
    the keys of the records: every key of every record is a column, every
    column is a key of some record, and no column comes twice.  The keys of
    the first record come first, in their order; a later record only adds
    columns at the end. *)
Theorem pd_DataFrame_columns (data : list dict) :
  NoDup (columns (pd_DataFrame data)) /\
  (forall k, k ∈ columns (pd_DataFrame data) <->
             exists r, r ∈ data /\ k ∈ dict_keys r) /\
  (forall r rest, data = r :: rest -> NoDup (dict_keys r) ->
     exists more, columns (pd_DataFrame data) = dict_keys r ++ more) /\
  (forall r, columns (pd_DataFrame (data ++ [r])) =
             add_new_keys (columns (pd_DataFrame data)) (dict_keys r)).
Proof.
  cbn [pd_DataFrame columns].
  destruct (fold_add_new_keys_spec data [] (NoDup_nil_2 (A:=string))) as (H1 & _ & H3).
  cbn zeta in *. split; [exact H1|]. split; [|split].
  - intros k. rewrite H3, elem_of_nil. tauto.
  - intros r rest -> Hnd. cbn [fold_left].
    rewrite (add_new_keys_fresh (dict_keys r) []) by exact Hnd. cbn [app].
    destruct (fold_add_new_keys_spec rest (dict_keys r) Hnd) as (_ & Hm & _).
    exact Hm.
  - intros r. now rewrite fold_left_app.
Qed.

Lemma pd_DataFrame_columns_witness :
  NoDup (columns (pd_DataFrame [[("a", VInt 1)]; [("a", VInt 2); ("b", VInt 5)]])) /\
  (forall k,
     k ∈ columns (pd_DataFrame [[("a", VInt 1)]; [("a", VInt 2); ("b", VInt 5)]])
     <-> exists r, r ∈ [[("a", VInt 1)]; [("a", VInt 2); ("b", VInt 5)]]
                   /\ k ∈ dict_keys r) /\
  (forall r rest,
     [[("a", VInt 1)]; [("a", VInt 2); ("b", VInt 5)]] = r :: rest ->
     NoDup (dict_keys r) ->
     exists more,
       columns (pd_DataFrame [[("a", VInt 1)]; [("a", VInt 2); ("b", VInt 5)]])
         = dict_keys r ++ more) /\
  (forall r,
     columns (pd_DataFrame
                ([[("a", VInt 1)]; [("a", VInt 2); ("b", VInt 5)]] ++ [r])) =
       add_new_keys
         (columns (pd_DataFrame [[("a", VInt 1)]; [("a", VInt 2); ("b", VInt 5)]]))
         (dict_keys r)).
Proof.
  exact (pd_DataFrame_columns [[("a", VInt 1)]; [("a", VInt 2); ("b", VInt 5)]]).
Defined.

(** ** Records that all have the same integer fields *)

Lemma add_new_keys_known (keys seen : list string) :
  (forall k, k ∈ keys -> k ∈ seen) -> add_new_keys seen keys = seen.
Proof.
  induction keys as [|k keys IH]; intros Hin; cbn; [reflexivity|].
  assert (E : existsb (String.eqb k) seen = true).
  { apply existsb_eqb_elem_of, Hin. now left. }
  rewrite E. apply IH. intros k0 Hk0. apply Hin. now right.
Qed.

Lemma uniform_columns (ks : list string) (data : list dict) :
  data <> [] -> NoDup ks ->
  Forall (fun r => dict_keys r = ks) data ->
  columns (pd_DataFrame data) = ks.
Proof.
  intros Hne Hnd Hall. cbn [pd_DataFrame columns].
  destruct data as [|r rest]; [congruence|].
  apply Forall_cons in Hall as [Hr Hrest]. cbn [fold_left].
  rewrite Hr, (add_new_keys_fresh ks []) by exact Hnd. cbn [app].
  clear Hne Hr r. induction Hrest as [|r rest Hr _ IH]; [reflexivity|].
  cbn [fold_left]. rewrite Hr, add_new_keys_known by auto. exact IH.
Qed.

Lemma dict_get_of_key (k : string) (r : dict) :
  k ∈ dict_keys r -> exists v, dict_get k r = Some v /\ (k, v) ∈ r.
Proof.
  unfold dict_keys. induction r as [|[k' v'] r IH]; cbn; intros Hin.
  - inversion Hin.
  - destruct (String.eqb k k') eqn:E.
    + apply String.eqb_eq in E as ->. exists v'. split; [reflexivity | now left].
    + apply elem_of_cons in Hin as [-> | Hin].
      * now rewrite String.eqb_refl in E.
      * destruct (IH Hin) as (v & Hv & Hel). exists v. split; [exact Hv | now right].
Qed.

(** A cell of an integer column as it is written. *)
Lemma format_row_ints (row : list (option value)) :
  Forall (fun c => is_int c = true) row ->
  format_row (replicate (length row) int64) row =
    Some (map (fun c => match c with Some (VInt n) => str_int n | _ => "" end)
              row).
Proof.
  induction 1 as [|c row Hc _ IH]; [reflexivity|].
  cbn [length replicate format_row map]. rewrite IH.
  destruct c as [[]|]; try discriminate. reflexivity.
Qed.

Lemma column_at_ints (m j : nat) (rows : list (list (option value))) :
  j < m ->
  Forall (fun row => length row = m /\ Forall (fun c => is_int c = true) row)
         rows ->
  infer_dtype (column_at j rows) = Some int64.
Proof.
  intros Hj Hall.
  assert (H : forallb is_int (column_at j rows) = true).
  { induction Hall as [|row rows [Hlen Hints] _ IH]; [reflexivity|].
    cbn [column_at forallb]. rewrite IH, andb_true_r.
    destruct (lookup_lt_is_Some_2 row j) as [c Hc]; [lia|].
    rewrite Hc. cbn. exact (proj1 (Forall_lookup _ _) Hints j c Hc). }
  unfold infer_dtype. now rewrite H.
Qed.

Lemma all_some_constant {A B} (f : A -> option B) (y : B) (l : list A) :
  (forall a, a ∈ l -> f a = Some y) ->
  all_some (map f l) = Some (replicate (length l) y).
Proof.
  induction l as [|a l IH]; intros H; [reflexivity|].
  cbn. rewrite (H a) by now left. rewrite IH; [reflexivity|].
  intros a' Ha'. apply H. now right.
Qed.

Lemma all_some_map_Some {A B} (f : A -> option B) (g : A -> B) (l : list A) :
  Forall (fun a => f a = Some (g a)) l -> all_some (map f l) = Some (map g l).
Proof.
  induction 1 as [|a l Ha _ IH]; [reflexivity|].
  cbn. now rewrite Ha, IH.
Qed.

(** X21: records that all carry the same keys, with integer values, are
    written as they are: the header is those keys in their order and the row
    of each record holds, under each key, the decimal form of the value the
    record has there.  No value is lost, reordered or reformatted. *)
Theorem csv_table_uniform_integers (ks : list string) (data : list dict) :
  data <> [] ->
  NoDup ks ->
  Forall (fun r => dict_keys r = ks /\
                   Forall (fun kv => exists n, kv.2 = VInt n) r) data ->
  csv_table (pd_DataFrame data) false =
    Some (ks,
          map (fun r =>
                 map (fun k => match dict_get k r with
                               | Some (VInt n) => str_int n
                               | _ => ""
                               end) ks)
              data).
Proof.
  intros Hne Hnd Hall.
  assert (Hcols : columns (pd_DataFrame data) = ks).
  { apply uniform_columns; [exact Hne | exact Hnd |].
    eapply Forall_impl; [exact Hall|]. now intros r [H _]. }
  assert (Hcells : cells (pd_DataFrame data)
                   = map (fun r => map (fun c => dict_get c r) ks) data).
  { change (cells (pd_DataFrame data)) with
      (map (fun r => map (fun c => dict_get c r) (columns (pd_DataFrame data)))
           data).
    now rewrite Hcols. }
  assert (Hrows : Forall (fun row => length row = length ks /\
                                     Forall (fun c => is_int c = true) row)
                         (cells (pd_DataFrame data))).
  { rewrite Hcells. apply Forall_fmap. eapply Forall_impl; [exact Hall|].
    intros r [Hk Hv]. cbn. split; [apply length_map|].
    apply Forall_fmap, Forall_forall. intros c Hc. cbn.
    rewrite <- Hk in Hc. destruct (dict_get_of_key c r Hc) as (v & -> & Hel).
    destruct (proj1 (Forall_forall _ _) Hv _ Hel) as [n Hn]. cbn in Hn.
    now rewrite Hn. }
  unfold csv_table. rewrite Hcols.
  rewrite (all_some_constant _ int64).
  2:{ intros j Hj. apply elem_of_seq in Hj.
      apply (column_at_ints (length ks)); [lia | exact Hrows]. }
  rewrite length_seq.
  rewrite (all_some_map_Some _
             (map (fun c => match c with
                            | Some (VInt n) => str_int n
                            | _ => ""
                            end))).
  2:{ eapply Forall_impl; [exact Hrows|]. intros row [Hlen Hints].
      rewrite <- Hlen. now apply format_row_ints. }
  rewrite Hcells, map_map. do 2 f_equal.
  apply map_ext. intros r. now rewrite map_map.
Qed.

Lemma csv_table_uniform_integers_witness :
  csv_table
    (pd_DataFrame [[("a", VInt 1); ("b", VInt 2)]; [("a", VInt 3); ("b", VInt 4)]])
    false =
    Some (["a"; "b"],
          map (fun r =>
                 map (fun k => match dict_get k r with
                               | Some (VInt n) => str_int n
                               | _ => ""
                               end) ["a"; "b"])
              [[("a", VInt 1); ("b", VInt 2)]; [("a", VInt 3); ("b", VInt 4)]]).
Proof.
  apply (csv_table_uniform_integers ["a"; "b"]
           [[("a", VInt 1); ("b", VInt 2)]; [("a", VInt 3); ("b", VInt 4)]]).
  - discriminate.
  - apply NoDup_cons_2; [|apply NoDup_singleton].
    intros H. apply list_elem_of_singleton in H. discriminate.
  - repeat constructor; cbn; eauto.
Defined.
